(** * Sentiment-Classifier: a shallow embedding of [sa.py]

    The class [SA] of [sa.py] is embedded method by method.  Python values
    are modelled as follows:
    - [str] as [string] (ASCII characters; case mapping and white space are
      the ASCII ones);
    - [int] as [Z]; the entries of the [int32] arrays of Keras as [Z]
      wrapped by [to_int32];
    - the probabilities, losses and accuracies computed by the network as
      rationals [Q], compared with the rational order;
    - the dictionary [word_index] as a [gmap string Z];
    - the cells of the columns that pandas reads as [pd_cell]: a [str], or
      a value of another type, on which a method of [str] raises;
    - the rows of the array of [predict_from_file] as lists of [cell], which
      [np.append] turns into text;
    - exceptions as values of [exn], results of fallible calls as [result];
    - the object [self], the log and the calls made to the libraries as an
      explicit state threaded through a state-and-exception monad [M]. *)

From Stdlib Require Import ZArith QArith Lqa String Ascii List DecimalString Lia.
From Stdlib Require DecimalPos.
From stdpp Require Import gmap strings list fin_maps.

Close Scope Q_scope.
Open Scope Z_scope.
Open Scope string_scope.

(** ** Python primitives *)

Module Py.

(** Exception classes that occur in the embedded code.  [KeyboardInterrupt]
    and [SystemExit] derive from [BaseException] only. *)
Inductive exn_class : Type :=
| OSError | ValueError | TypeError | AttributeError | KeyError
| IndexError | RuntimeError | KeyboardInterrupt | SystemExit.

Record exn : Type := mkExn { exn_cls : exn_class; exn_msg : string }.

(** [isinstance(e, Exception)] *)
Definition is_Exception (e : exn) : bool :=
  match exn_cls e with
  | KeyboardInterrupt | SystemExit => false
  | _ => true
  end.

Inductive result (A : Type) : Type :=
| Ok (a : A)
| Raise (e : exn).
Arguments Ok {A} a.
Arguments Raise {A} e.

Definition is_upper (c : ascii) : bool :=
  let n := N_of_ascii c in ((65 <=? n) && (n <=? 90))%N.

Definition is_digit (c : ascii) : bool :=
  let n := N_of_ascii c in ((48 <=? n) && (n <=? 57))%N.

(** [str.isspace] on one ASCII character: tab, line feed, vertical tab,
    form feed, carriage return, the separators 0x1c-0x1f and the space. *)
Definition is_space (c : ascii) : bool :=
  let n := N_of_ascii c in
  (((9 <=? n) && (n <=? 13)) || ((28 <=? n) && (n <=? 32)))%N.

Definition lower_char (c : ascii) : ascii :=
  if is_upper c then ascii_of_N (N_of_ascii c + 32) else c.

(** [s.lower()] *)
Fixpoint lower (s : string) : string :=
  match s with
  | EmptyString => EmptyString
  | String c s' => String (lower_char c) (lower s')
  end.

(** [s.startswith(p)] *)
Fixpoint startswith (s p : string) : bool :=
  match p, s with
  | EmptyString, _ => true
  | String _ _, EmptyString => false
  | String a p', String b s' => if Ascii.eqb a b then startswith s' p' else false
  end.

(** [s[n:]] for [n >= 0] *)
Fixpoint slice_from (n : nat) (s : string) : string :=
  match n, s with
  | O, _ => s
  | S _, EmptyString => EmptyString
  | S n', String _ s' => slice_from n' s'
  end.

(** [s.endswith(p)] *)
Definition endswith (s p : string) : bool :=
  (String.length p <=? String.length s)%nat &&
  String.eqb (slice_from (String.length s - String.length p) s) p.

(** [sep.join(l)] *)
Fixpoint join (sep : string) (l : list string) : string :=
  match l with
  | [] => EmptyString
  | [x] => x
  | x :: l' => x ++ sep ++ join sep l'
  end.

(** Splitting at the characters [is_sep], keeping empty fields: the state
    is the field being read, in reverse. *)
Fixpoint fields (is_sep : ascii -> bool) (cur : string) (s : string) : list string :=
  match s with
  | EmptyString => [String.rev cur]
  | String c s' =>
      if is_sep c then String.rev cur :: fields is_sep EmptyString s'
      else fields is_sep (String c cur) s'
  end.

Definition nonempty (s : string) : bool :=
  match s with EmptyString => false | _ => true end.

(** [s.split()]: fields between runs of white space, none of them empty. *)
Definition split (s : string) : list string :=
  List.filter nonempty (fields is_space EmptyString s).

(** [s.replace(c, "")] for a one-character [c] *)
Fixpoint remove_char (c : ascii) (s : string) : string :=
  match s with
  | EmptyString => EmptyString
  | String a s' => if Ascii.eqb a c then remove_char c s' else String a (remove_char c s')
  end.

(** The white space that [int] skips at both ends of an ASCII string: the
    characters from the tab to the carriage return, and the space (the
    separators 0x1c-0x1f are not skipped, unlike in [str.split]). *)
Definition is_int_space (c : ascii) : bool :=
  let n := N_of_ascii c in
  (((9 <=? n) && (n <=? 13)) || (n =? 32))%N.

Fixpoint lstrip (s : string) : string :=
  match s with
  | String c s' => if is_int_space c then lstrip s' else s
  | EmptyString => EmptyString
  end.

Fixpoint rstrip (s : string) : string :=
  match s with
  | String c s' =>
      if is_int_space c then
        match rstrip s' with
        | EmptyString => EmptyString
        | r => String c r
        end
      else String c (rstrip s')
  | EmptyString => EmptyString
  end.

(** The argument of [int] without the white space at its ends. *)
Definition strip (s : string) : string := rstrip (lstrip s).

Definition digit_val (c : ascii) : Z := Z.of_N (N_of_ascii c) - 48.

(** The digits of an integer literal as [int] reads them: decimal digits,
    single underscores allowed between two digits.  [prev] tells whether
    the previous character was a digit. *)
Fixpoint digits (acc : Z) (prev : bool) (s : string) : option Z :=
  match s with
  | EmptyString => if prev then Some acc else None
  | String c s' =>
      if is_digit c then digits (10 * acc + digit_val c) true s'
      else if Ascii.eqb c "_" then (if prev then digits acc false s' else None)
      else None
  end.

Definition invalid_literal (s : string) : exn :=
  mkExn ValueError ("invalid literal for int() with base 10: '" ++ s ++ "'").

(** [int(s)] *)
Definition int (s : string) : result Z :=
  let t := strip s in
  let r := match t with
           | String "+" t' => digits 0 false t'
           | String "-" t' => option_map Z.opp (digits 0 false t')
           | _ => digits 0 false t
           end in
  match r with
  | Some z => Ok z
  | None => Raise (invalid_literal s)
  end.

(** [str(z)], also the text an f-string puts for [{z}] *)
Definition str (z : Z) : string := NilZero.string_of_int (Z.to_int z).

End Py.

(** ** The functions of Keras that [sa.py] calls

    These belong to the library, not to the repository; they are embedded
    from the library's documented behaviour, for the arguments the source
    passes. *)

Module Keras.
Import Py.

(** The default [filters] of [text_to_word_sequence]: the ASCII
    punctuation without the apostrophe, the tab and the line feed. *)
Definition is_filtered (c : ascii) : bool :=
  let n := N_of_ascii c in
  ((n =? 9) || (n =? 10) || ((33 <=? n) && (n <=? 38)) || ((40 <=? n) && (n <=? 47))
   || ((58 <=? n) && (n <=? 64)) || ((91 <=? n) && (n <=? 96))
   || ((123 <=? n) && (n <=? 126)))%N.

Fixpoint translate (s : string) : string :=
  match s with
  | EmptyString => EmptyString
  | String c s' => String (if is_filtered c then " "%char else c) (translate s')
  end.

(** [keras.preprocessing.text.text_to_word_sequence(input_text)]: lower
    case, filtered characters replaced by a space, split at each space,
    empty words dropped. *)
Definition text_to_word_sequence (input_text : string) : list string :=
  List.filter nonempty
    (fields (fun c => Ascii.eqb c " ") EmptyString (translate (lower input_text))).

Inductive side : Type := Pre | Post.

(** [s[-maxlen:]]; for [maxlen = 0] Python's slice is the whole of [s]. *)
Definition slice_last {A} (maxlen : nat) (s : list A) : list A :=
  match maxlen with
  | O => s
  | _ => skipn (length s - maxlen) s
  end.

(** The conversion of an integer to the [dtype] of the array, ['int32'],
    that [np.asarray(trunc, dtype=dtype)] makes: values outside the range
    wrap around. *)
Definition to_int32 (z : Z) : Z := (z + 2 ^ 31) mod 2 ^ 32 - 2 ^ 31.

(** One row of [pad_sequences]: the sequence is truncated on the side
    [truncating], converted to [int32], and written at the side opposite
    to [padding] of a row of [maxlen] copies of [value].  (The row is
    made by [np.full(..., value, dtype='int32')]; NumPy 1 wraps a
    [value] outside the range as it does for the elements.) *)
Definition pad_row (maxlen : nat) (padding truncating : side) (value : Z)
    (s : list Z) : result (list Z) :=
  let trunc := match truncating with
               | Pre => slice_last maxlen s
               | Post => firstn maxlen s
               end in
  let trunc := List.map to_int32 trunc in
  if (length trunc <=? maxlen)%nat then
    Ok match padding with
       | Post => (trunc ++ repeat (to_int32 value) (maxlen - length trunc))%list
       | Pre => (repeat (to_int32 value) (maxlen - length trunc) ++ trunc)%list
       end
  else Raise (mkExn ValueError "could not broadcast input array").

(** [sequence.pad_sequences(sequences, value=value, padding=padding,
    truncating=truncating, maxlen=maxlen)]; [truncating] defaults to
    ['pre'] and [dtype] to ['int32']. *)
Fixpoint pad_sequences (sequences : list (list Z)) (value : Z)
    (padding truncating : side) (maxlen : nat) : result (list (list Z)) :=
  match sequences with
  | [] => Ok []
  | s :: rest =>
      match pad_row maxlen padding truncating value s with
      | Raise e => Raise e
      | Ok row =>
          match pad_sequences rest value padding truncating maxlen with
          | Raise e => Raise e
          | Ok rows => Ok (row :: rows)
          end
      end
  end.

End Keras.

(** ** The class [SA] *)

Module SA.
Import Py Keras.

(** [config.py]: the settings the class reads. *)
Record Config : Type := {
  POSITIVE_CAP : Q;
  NEUTRAL_CAP : Q;
  WORD_INDEX_PATH : string;
  TRAIN_FILE_PATH : string;
  TEST_FILE_PATH : string
}.

(** A Keras model, seen through the two methods the class calls on it. *)
Record Model : Type := {
  model_predict : list (list Z) -> result (list (list Q));
  model_evaluate : list (list Z) -> list Z -> result (Q * Q)
}.

(** A cell of a column read by pandas: a [str], or a value of another type
    (the float NaN of a missing cell, the number of a numeric column), of
    which the name of the type is kept. *)
Inductive pd_cell : Type :=
| PdStr (s : string)
| PdOther (type_name : string).

(** [x.attr(...)] for a method [attr] of [str] that computes [f]: an
    [AttributeError] when [x] is not a [str]. *)
Definition on_str {B} (attr : string) (f : string -> B) (x : pd_cell) : result B :=
  match x with
  | PdStr s => Ok (f s)
  | PdOther t =>
      Raise (mkExn AttributeError
               ("'" ++ t ++ "' object has no attribute '" ++ attr ++ "'"))
  end.

(** [series.apply(f)] *)
Fixpoint series_apply {A B} (f : A -> result B) (series : list A) : result (list B) :=
  match series with
  | [] => Ok []
  | x :: rest =>
      match f x with
      | Raise e => Raise e
      | Ok y =>
          match series_apply f rest with
          | Raise e => Raise e
          | Ok ys => Ok (y :: ys)
          end
      end
  end.

(** What lies outside the program: the files, the [models] directory and
    the framework's constructors. *)
Record World : Type := {
  (* pd.read_csv(path), columns Words and Indexes, row by row, for a
     resource whose indexes are integers; the rows whose word is a str
     (a missing word is a NaN key, which no str is equal to) *)
  read_word_index : string -> result (list (string * Z));
  (* pd.read_csv(path), columns Reviews and Sentiment, row by row *)
  read_labeled : string -> result (list (pd_cell * pd_cell));
  (* pd.read_csv(path)['Reviews'] *)
  read_reviews : string -> result (list pd_cell);
  (* the text NumPy writes for a float put in an array of strings *)
  float_repr : Q -> string;
  (* open(path, 'r').readlines() *)
  readlines : string -> result (list string);
  (* os.listdir(path) *)
  listdir : string -> result (list string);
  (* keras.models.load_model(path) *)
  load_model : option string -> result Model;
  (* keras.Sequential([...]) after compile *)
  sequential : Model;
  (* model.fit(train_data, train_labels, ..., validation_data=...) *)
  fit : Model -> list (list Z) -> list Z -> list (list Z) -> list Z -> result Model;
  (* model.save(path) *)
  save : Model -> string -> result unit
}.

(** The attributes of an [SA] object; [None] is an attribute not set yet. *)
Record Self : Type := {
  word_index : gmap string Z;
  positive_cap : Q;
  neutral_cap : Q;
  model : option Model;
  loss : option Q;
  accuracy : option Q
}.

(** The calls that leave the program, in the order they are made. *)
Inductive event : Type :=
| ReadCsv (path : string)
| ReadLines (path : string)
| Listdir (path : string)
| LoadModel (path : option string)
| Fit
| Evaluate (data : list (list Z)) (labels : list Z)
| Predict (batch : list (list Z))
| Save (path : string)
| LogFatal (e : exn).

Record State : Type := { self : Self; trace : list event }.

(** State and exceptions: a raised exception keeps the state reached. *)
Definition M (A : Type) : Type := State -> result A * State.

Definition ret {A} (a : A) : M A := fun st => (Ok a, st).

Definition bind {A B} (c : M A) (k : A -> M B) : M B :=
  fun st => match c st with
            | (Ok a, st') => k a st'
            | (Raise e, st') => (Raise e, st')
            end.

Definition raise {A} (e : exn) : M A := fun st => (Raise e, st).

Definition lift {A} (r : result A) : M A := fun st => (r, st).

Definition get_self : M Self := fun st => (Ok (self st), st).

Definition set_self (f : Self -> Self) : M unit :=
  fun st => (Ok tt, {| self := f (self st); trace := trace st |}).

Definition emit (ev : event) : M unit :=
  fun st => (Ok tt, {| self := self st; trace := (trace st ++ [ev])%list |}).

(** [try: c  except Exception as e: h e] *)
Definition try_except {A} (c : M A) (h : exn -> M A) : M A :=
  fun st => match c st with
            | (Raise e, st') => if is_Exception e then h e st' else (Raise e, st')
            | r => r
            end.

(** [for x in l: acc = body acc x] *)
Fixpoint for_each {A B} (l : list A) (acc : B) (body : B -> A -> M B) : M B :=
  match l with
  | [] => ret acc
  | x :: l' => bind (body acc x) (fun acc' => for_each l' acc' body)
  end.

Declare Scope py_scope.
Delimit Scope py_scope with py.
Notation "x <- c ;; k" := (bind c (fun x => k))
  (at level 100, c at next level, right associativity) : py_scope.
Notation "c ;;; k" := (bind c (fun _ => k))
  (at level 100, right associativity) : py_scope.
Open Scope py_scope.

Definition set_model (m : Model) : M unit :=
  set_self (fun s => {| word_index := word_index s; positive_cap := positive_cap s;
                        neutral_cap := neutral_cap s; model := Some m;
                        loss := loss s; accuracy := accuracy s |}).

Definition set_loss_accuracy (la : Q * Q) : M unit :=
  set_self (fun s => {| word_index := word_index s; positive_cap := positive_cap s;
                        neutral_cap := neutral_cap s; model := model s;
                        loss := Some (fst la); accuracy := Some (snd la) |}).

(** [self.model] *)
Definition get_model : M Model :=
  s <- get_self ;;
  match model s with
  | Some m => ret m
  | None => raise (mkExn AttributeError "'SA' object has no attribute 'model'")
  end.

(** [d[k]] *)
Definition getitem (d : gmap string Z) (k : string) : result Z :=
  match d !! k with
  | Some v => Ok v
  | None => Raise (mkExn KeyError k)
  end.

(** [dict(zip(words, indexes))]: a later row replaces an earlier one with
    the same word. *)
Definition dict_zip (rows : list (string * Z)) : gmap string Z :=
  fold_left (fun d r => <[fst r := snd r]> d) rows ∅.

Section Methods.
Variable w : World.
Variable config : Config.

Definition init_word_index : result (gmap string Z) :=
  match read_word_index w (WORD_INDEX_PATH config) with
  | Raise e => Raise e
  | Ok rows =>
      let word_index := dict_zip rows in
      let word_index := <["<PAD>" := 0]> word_index in
      let word_index := <["<START" := 1]> word_index in
      let word_index := <["<UNK>" := 2]> word_index in
      let word_index := <["<UNUSED>" := 3]> word_index in
      Ok word_index
  end.

(** [__init__]; the configuration of the device, which touches no attribute,
    is left out. *)
Definition __init__ : result Self :=
  match init_word_index with
  | Raise e => Raise e
  | Ok wi => Ok {| word_index := wi;
                   positive_cap := POSITIVE_CAP config;
                   neutral_cap := NEUTRAL_CAP config;
                   model := None; loss := None; accuracy := None |}
  end.

Definition encode_review (s : Self) (review : list string) : list Z :=
  let tokens := text_to_word_sequence (join " " review) in
  List.map (fun word => match word_index s !! word with
                        | Some i => i
                        | None => 0
                        end) tokens.

Definition encode_sentiment (x : string) : Z :=
  if String.eqb (lower x) "positive" then 1 else 0.

Definition preprocess_data (file_path : string) : M (list (list Z) * list Z) :=
  emit (ReadCsv file_path) ;;;
  reviews <- lift (read_labeled w file_path) ;;
  s <- get_self ;;
  let data := List.map fst reviews in
  let labels := List.map snd reviews in
  data <- lift (series_apply (on_str "split" split) data) ;;
  let data := List.map (encode_review s) data in
  pad <- lift (getitem (word_index s) "<PAD>") ;;
  data <- lift (pad_sequences data pad Post Pre 500) ;;
  labels <- lift (series_apply (on_str "lower" encode_sentiment) labels) ;;
  ret (data, labels).

(** The loop of [train_model] that looks for a model number. *)
Fixpoint next_idx (curr_idx : Z) (names : list string) : result Z :=
  match names with
  | [] => Ok curr_idx
  | i :: names' =>
      if startswith i "my_model" then
        match int (slice_from 9 i) with
        | Raise e => Raise e
        | Ok idx => next_idx (if (curr_idx <=? idx)%Z then idx + 1 else curr_idx) names'
        end
      else next_idx curr_idx names'
  end.

(** The value given to [save_as] when it is [None], from the listing of
    [./models]. *)
Definition default_save_as (names : list string) : result string :=
  match next_idx 0 names with
  | Raise e => Raise e
  | Ok curr_idx => Ok ("./models/my_model_" ++ str curr_idx)
  end.

Definition model_evaluate_ (m : Model) (data : list (list Z)) (labels : list Z)
    : M (Q * Q) :=
  emit (Evaluate data labels) ;;; lift (model_evaluate m data labels).

Definition train_model (save_as : option string) : M unit :=
  train <- preprocess_data (TRAIN_FILE_PATH config) ;;
  let '(train_data, train_labels) := train in
  test <- preprocess_data (TEST_FILE_PATH config) ;;
  let '(test_data, test_labels) := test in
  set_model (sequential w) ;;;
  emit Fit ;;;
  m <- lift (fit w (sequential w) train_data train_labels test_data test_labels) ;;
  set_model m ;;;
  la <- model_evaluate_ m test_data test_labels ;;
  set_loss_accuracy la ;;;
  save_as <- match save_as with
             | None =>
                 emit (Listdir "./models") ;;;
                 names <- lift (listdir w "./models") ;;
                 lift (default_save_as names)
             | Some p => ret p
             end ;;
  emit (Save save_as) ;;;
  m <- get_model ;;
  lift (save w m save_as).

Definition load_saved_model (load_path : option string) : M unit :=
  test <- preprocess_data (TEST_FILE_PATH config) ;;
  let '(test_data, test_labels) := test in
  try_except
    (emit (LoadModel load_path) ;;;
     m <- lift (load_model w load_path) ;;
     set_model m)
    (fun e => emit (LogFatal e) ;;; raise e) ;;;
  m <- get_model ;;
  la <- model_evaluate_ m test_data test_labels ;;
  set_loss_accuracy la.

Definition which_sentiment (s : Self) (prob : Q) : string :=
  if Qle_bool (positive_cap s) prob then "Positive review"
  else if Qle_bool (neutral_cap s) prob then "Neutral review"
  else "Negative review".

(** [a[0][0]] *)
Definition item00 (a : list (list Q)) : result Q :=
  match a with
  | (x :: _) :: _ => Ok x
  | _ => Raise (mkExn IndexError "index 0 is out of bounds")
  end.

Definition predict (review : string) : M (Q * string) :=
  s <- get_self ;;
  let review_list := split review in
  let review_list := encode_review s review_list in
  let review_list := [review_list] in
  pad <- lift (getitem (word_index s) "<PAD>") ;;
  user_review <- lift (pad_sequences review_list pad Post Pre 500) ;;
  m <- get_model ;;
  emit (Predict user_review) ;;;
  prob <- lift (model_predict m user_review) ;;
  p <- lift (item00 prob) ;;
  ret (p, which_sentiment s p).

(** The values that the rows of [predict_from_file] are made of. *)
Inductive cell : Type :=
| CInt (z : Z)
| CStr (t : string)
| CProb (p : Q).

(** The entry of an array of strings that NumPy makes of a value. *)
Definition coerce (c : cell) : cell :=
  match c with
  | CInt z => CStr (str z)
  | CStr t => CStr t
  | CProb p => CStr (float_repr w p)
  end.

(** [np.append(arr, [row], axis=0)] for a [row] that holds a [str]: the
    result is an array of strings, in which the entries of [arr] and of
    [row] are written as text. *)
Definition np_append (arr : list (list cell)) (row : list cell) : list (list cell) :=
  (List.map (List.map coerce) arr ++ [List.map coerce row])%list.

(** The loop of [predict_from_file], which the source writes once in each
    branch: the collection starts with a row of zeros, gets one row per
    review, and is returned without its first row.  [self.predict(i)]
    starts with [review.split()], which raises when [i] is not a [str]. *)
Definition predict_rows (data : list pd_cell) : M (list (list cell)) :=
  let sentiment_collection := [[CInt 0; CInt 0; CInt 0]] in
  sentiment_collection <-
    for_each data sentiment_collection
      (fun sentiment_collection i =>
         i <- lift (on_str "split" (fun review => review) i) ;;
         r <- predict i ;;
         let '(prob, sentiment) := r in
         ret (np_append sentiment_collection [CStr i; CProb prob; CStr sentiment])) ;;
  ret (List.tl sentiment_collection).

Definition predict_from_file (file_path : string) : M (list (list cell)) :=
  if endswith file_path ".csv" then
    emit (ReadCsv file_path) ;;;
    data <- lift (read_reviews w file_path) ;;
    predict_rows data
  else if endswith file_path ".txt" then
    emit (ReadLines file_path) ;;;
    data <- lift (readlines w file_path) ;;
    let data := List.map (remove_char "010") data in
    predict_rows (List.map PdStr data)
  else
    (* raise f"Invalid file format '{file_path}'": a str is not an
       exception, so the raise statement itself fails. *)
    raise (mkExn TypeError "exceptions must derive from BaseException").

End Methods.

End SA.

(** ** A small world to run the methods in *)

Module Demo.
Import Py Keras SA.

Definition config : Config := {|
  POSITIVE_CAP := (6 # 10)%Q;
  NEUTRAL_CAP := (4 # 10)%Q;
  WORD_INDEX_PATH := "word_index.csv";
  TRAIN_FILE_PATH := "train.csv";
  TEST_FILE_PATH := "test.csv"
|}.

Definition no_such_file (path : string) : exn :=
  mkExn OSError ("No such file or directory: '" ++ path ++ "'").

Definition mem (z : Z) (row : list Z) : bool := existsb (Z.eqb z) row.

(** A network that only looks for the words numbered 4 and 5. *)
Definition score (row : list Z) : Q :=
  if mem 4 row then (3 # 4)%Q else if mem 5 row then (1 # 10)%Q else (1 # 2)%Q.

Definition net : Model := {|
  model_predict := fun batch => Ok (List.map (fun row => [score row]) batch);
  model_evaluate := fun _ _ => Ok ((1 # 4)%Q, (9 # 10)%Q)
|}.

(** A model saved without having been compiled: it cannot be evaluated. *)
Definition uncompiled : Model := {|
  model_predict := fun batch => Ok (List.map (fun row => [score row]) batch);
  model_evaluate := fun _ _ =>
    Raise (mkExn RuntimeError "You must compile your model before training/testing.")
|}.

(** The text of the three outputs of [score]. *)
Definition repr (p : Q) : string :=
  if Qeq_bool p (3 # 4) then "0.75"
  else if Qeq_bool p (1 # 10) then "0.1"
  else "0.5".

Definition world : World := {|
  read_word_index := fun path =>
    if String.eqb path "word_index.csv"
    then Ok [("good", 4); ("bad", 5); ("<PAD>", 9); ("good", 4)]
    else Raise (no_such_file path);
  read_labeled := fun path =>
    if String.eqb path "test.csv"
    then Ok [(PdStr "a good film", PdStr "Positive"); (PdStr "bad, bad", PdStr "negative")]
    else if String.eqb path "train.csv"
    then Ok [(PdStr "good", PdStr "positive"); (PdStr "bad", PdStr "negative")]
    else if String.eqb path "gaps.csv"
    then Ok [(PdStr "good", PdStr "positive"); (PdOther "float", PdStr "negative")]
    else Raise (no_such_file path);
  read_reviews := fun path =>
    if String.eqb path "reviews.csv"
    then Ok [PdStr "Good!"; PdStr "nothing to say"]
    else if String.eqb path "gaps.csv"
    then Ok [PdStr "Good!"; PdOther "float"; PdStr "bad"]
    else Raise (no_such_file path);
  float_repr := repr;
  readlines := fun path =>
    if String.eqb path "reviews.txt"
    then Ok [String.append "a good film" (String "010" EmptyString);
             String.append "so so" (String "010" EmptyString);
             "BAD"]
    else Raise (no_such_file path);
  listdir := fun path =>
    if String.eqb path "./models"
    then Ok ["my_model_0"; "my_model_1"; "my_model_3"]
    else Raise (no_such_file path);
  load_model := fun path =>
    match path with
    | Some p =>
        if String.eqb p "./models/my_model_0" then Ok net
        else if String.eqb p "./models/my_model_1" then Ok uncompiled
        else Raise (no_such_file p)
    | None => Raise (mkExn TypeError "expected str, bytes or os.PathLike object")
    end;
  sequential := net;
  fit := fun m _ _ _ _ => Ok m;
  save := fun _ _ => Ok tt
|}.

Definition word_index0 : gmap string Z :=
  <["<UNUSED>" := 3]> (<["<UNK>" := 2]> (<["<START" := 1]> (<["<PAD>" := 0]>
    (<["bad" := 5]> (<["good" := 4]> ∅))))).

(** The object right after construction, and after a first load. *)
Definition fresh : Self := {|
  word_index := word_index0;
  positive_cap := (6 # 10)%Q; neutral_cap := (4 # 10)%Q;
  model := None; loss := None; accuracy := None
|}.

Definition loaded : Self := {|
  word_index := word_index0;
  positive_cap := (6 # 10)%Q; neutral_cap := (4 # 10)%Q;
  model := Some net; loss := Some (1 # 4)%Q; accuracy := Some (9 # 10)%Q
|}.

Definition st_fresh : State := {| self := fresh; trace := [] |}.
Definition st_loaded : State := {| self := loaded; trace := [] |}.

End Demo.

(** ** The end of the constructor: the configuration of the device *)

Module Device.
Import Py SA.

(** [tf.config]: the devices of a kind, and the switch of the memory growth
    of a device. *)
Record Devices : Type := {
  list_physical_devices : string -> list string;
  set_memory_growth : string -> result unit
}.

(** [physical_devices[0]] *)
Definition first_device (physical_devices : list string) : result string :=
  match physical_devices with
  | d :: _ => Ok d
  | [] => Raise (mkExn IndexError "list index out of range")
  end.

(** [" " + e] for an exception [e]: a [str] and an exception cannot be
    concatenated.  (Python's message also names the class of [e].) *)
Definition str_plus_exception : exn :=
  mkExn TypeError "can only concatenate str (not an exception) to str".

(** Lines 23-28 of [__init__]: the handler evaluates [" " + e] before
    [logging.info] is called. *)
Definition configure_device (tf : Devices) (DEVICE : string) : result unit :=
  let physical_devices := list_physical_devices tf DEVICE in
  let body := match first_device physical_devices with
              | Ok d => set_memory_growth tf d
              | Raise e => Raise e
              end in
  match body with
  | Ok u => Ok u
  | Raise e => if is_Exception e then Raise str_plus_exception else Raise e
  end.

(** [SA()]: the whole of [__init__]. *)
Definition construct (w : World) (config : Config) (tf : Devices) (DEVICE : string)
    : result Self :=
  match __init__ w config with
  | Raise e => Raise e
  | Ok s =>
      match configure_device tf DEVICE with
      | Raise e => Raise e
      | Ok _ => Ok s
      end
  end.

End Device.

(** ** More of the small world *)

Module Demo2.
Import Py SA Device.

(** A machine without GPU. *)
Definition cpu_only : Devices := {|
  list_physical_devices := fun kind =>
    if String.eqb kind "CPU" then ["/physical_device:CPU:0"] else [];
  set_memory_growth := fun d =>
    Raise (mkExn ValueError "Cannot set memory growth on non-GPU devices")
|}.

(** The world of [Demo] with one more entry in [./models]. *)
Definition world_stray : World := {|
  read_word_index := read_word_index Demo.world;
  read_labeled := read_labeled Demo.world;
  read_reviews := read_reviews Demo.world;
  float_repr := float_repr Demo.world;
  readlines := readlines Demo.world;
  listdir := fun path =>
    if String.eqb path "./models"
    then Ok ["my_model_0"; "my_model_best"]
    else Raise (Demo.no_such_file path);
  load_model := load_model Demo.world;
  sequential := sequential Demo.world;
  fit := fit Demo.world;
  save := save Demo.world
|}.

(** The world of [Demo] where the fitting runs out of memory. *)
Definition world_nofit : World := {|
  read_word_index := read_word_index Demo.world;
  read_labeled := read_labeled Demo.world;
  read_reviews := read_reviews Demo.world;
  float_repr := float_repr Demo.world;
  readlines := readlines Demo.world;
  listdir := listdir Demo.world;
  load_model := load_model Demo.world;
  sequential := Demo.uncompiled;
  fit := fun _ _ _ _ _ => Raise (mkExn RuntimeError "OOM when allocating tensor");
  save := save Demo.world
|}.

(** The world of [Demo] where the loading is interrupted from the keyboard. *)
Definition world_interrupt : World := {|
  read_word_index := read_word_index Demo.world;
  read_labeled := read_labeled Demo.world;
  read_reviews := read_reviews Demo.world;
  float_repr := float_repr Demo.world;
  readlines := readlines Demo.world;
  listdir := listdir Demo.world;
  load_model := fun _ => Raise (mkExn KeyboardInterrupt "");
  sequential := sequential Demo.world;
  fit := fit Demo.world;
  save := save Demo.world
|}.


(** A model whose output has no entry. *)
Definition mute : Model := {|
  model_predict := fun _ => Ok [];
  model_evaluate := fun _ _ => Ok ((1 # 4)%Q, (9 # 10)%Q)
|}.

(** A model that rejects the batches that hold the word numbered 5. *)
Definition picky : Model := {|
  model_predict := fun batch =>
    if existsb (Demo.mem 5) batch
    then Raise (mkExn ValueError "indices out of range")
    else Ok (List.map (fun row => [Demo.score row]) batch);
  model_evaluate := fun _ _ => Ok ((1 # 4)%Q, (9 # 10)%Q)
|}.

Definition st_picky : State := {|
  self := {| word_index := Demo.word_index0;
             positive_cap := (6 # 10)%Q; neutral_cap := (4 # 10)%Q;
             model := Some picky; loss := None; accuracy := None |};
  trace := []
|}.

End Demo2.

(** ** Notions used to state the properties *)

Module Spec.
Import Py.

(** Two characters that are equal or that are the two cases of one
    letter. *)
Definition same_letter (c d : ascii) : bool :=
  Ascii.eqb c d
  || (is_upper c && Ascii.eqb (lower_char c) d)
  || (is_upper d && Ascii.eqb (lower_char d) c).

(** Equality of strings under case-insensitive comparison. *)
Fixpoint eq_ignore_case (a b : string) : bool :=
  match a, b with
  | EmptyString, EmptyString => true
  | String c a', String d b' => same_letter c d && eq_ignore_case a' b'
  | _, _ => false
  end.

(** The index bound to [word] by the last row of the resource that has
    this word, if any. *)
Fixpoint last_row (word : string) (rows : list (string * Z)) : option Z :=
  match rows with
  | [] => None
  | r :: rows' =>
      match last_row word rows' with
      | Some i => Some i
      | None => if String.eqb (fst r) word then Some (snd r) else None
      end
  end.

(** The four reserved entries, as the source spells their keys. *)
Definition reserved : list (string * Z) :=
  [("<PAD>", 0); ("<START", 1); ("<UNK>", 2); ("<UNUSED>", 3)].

(** What a row of a post-padded, pre-truncated batch is: [maxlen] long,
    the sequence followed by [value]s when it is short enough, and its
    last [maxlen] elements otherwise. *)
Definition padded {A} (maxlen : nat) (value : A) (s row : list A) : Prop :=
  length row = maxlen /\
  ((length s <= maxlen)%nat -> row = (s ++ repeat value (maxlen - length s))%list) /\
  ((maxlen < length s)%nat -> row = skipn (length s - maxlen) s).

(** [idx] is a number that the loop of [train_model] reads from an entry
    of the listing [names]. *)
Definition numbered (names : list string) (idx : Z) : Prop :=
  exists i, In i names /\ startswith i "my_model" = true /\ int (slice_from 9 i) = Ok idx.

(** What [predict] returns for [text] when called on the object [s]. *)
Definition predict_value (s : SA.Self) (text : string) : result (Q * string) :=
  fst (SA.predict text {| SA.self := s; SA.trace := [] |}).

(** The Prediction Record of [text] in the array that [predict_from_file]
    returns: the text, then the probability that [predict] returns for it,
    written as text, then the label. *)
Definition record (w : SA.World) (s : SA.Self) (text : string) : list SA.cell :=
  match predict_value s text with
  | Ok (prob, sentiment) =>
      [SA.CStr text; SA.CStr (SA.float_repr w prob); SA.CStr sentiment]
  | Raise _ => []
  end.


(** The cells of a file of labelled reviews whose cells are all [str]. *)
Definition str_rows (reviews : list (string * string))
    : list (SA.pd_cell * SA.pd_cell) :=
  List.map (fun r => (SA.PdStr (fst r), SA.PdStr (snd r))) reviews.

End Spec.

(** ** Notions used to state the further properties *)

Module SpecX.
Import Py Keras SA.

(** The attributes set by the constructor are the same in [s] and [s']. *)
Definition frozen (s s' : Self) : Prop :=
  word_index s' = word_index s /\
  positive_cap s' = positive_cap s /\
  neutral_cap s' = neutral_cap s.

(** A computation that keeps the attributes set by the constructor,
    whether it returns or raises. *)
Definition keeps {A} (c : M A) : Prop :=
  forall st, frozen (self st) (self (snd (c st))).

(** [c] is one of the characters of [s]. *)
Fixpoint occurs (c : ascii) (s : string) : Prop :=
  match s with
  | EmptyString => False
  | String a s' => a = c \/ occurs c s'
  end.

(** The index that the rows of the resource give to [word], 0 when they
    give none. *)
Definition row_index (rows : list (string * Z)) (word : string) : Z :=
  match Spec.last_row word rows with
  | Some i => i
  | None => 0
  end.

(** The batch that [predict] hands to the model for [text]. *)
Definition user_review (s : Self) (text : string) : list (list Z) :=
  match getitem (word_index s) "<PAD>" with
  | Ok pad =>
      match pad_sequences [encode_review s (split text)] pad Post Pre 500 with
      | Ok batch => batch
      | Raise _ => []
      end
  | Raise _ => []
  end.

(** The order of the three answers of [which_sentiment]. *)
Definition rank (label : string) : nat :=
  if String.eqb label "Positive review" then 2
  else if String.eqb label "Neutral review" then 1
  else 0.

(** The events [LogFatal] and [Save] of a trace. *)
Definition is_save (ev : event) : bool :=
  match ev with Save _ => true | _ => false end.

Definition is_listdir (ev : event) : bool :=
  match ev with Listdir _ => true | _ => false end.

(** The reading that [predict_from_file] makes of a file it accepts. *)
Definition read_event (file_path : string) : event :=
  if endswith file_path ".csv" then ReadCsv file_path else ReadLines file_path.

(** [texts] are the reviews of the file, as [predict_from_file] gets them:
    the cells of the column of a [.csv] file, all of them [str], or the
    lines of a [.txt] file without their line feeds. *)
Definition reviews_of (w : World) (file_path : string) (texts : list string) : Prop :=
  (endswith file_path ".csv" = true /\
   read_reviews w file_path = Ok (List.map PdStr texts)) \/
  (endswith file_path ".csv" = false /\ endswith file_path ".txt" = true /\
   exists lines, readlines w file_path = Ok lines /\
                 texts = List.map (remove_char "010") lines).

(** The body of the loop of [predict_from_file]. *)
Definition loop_body (w : World) (sentiment_collection : list (list cell)) (i : pd_cell)
    : M (list (list cell)) :=
  bind (lift (on_str "split" (fun review => review) i)) (fun i =>
  bind (predict i) (fun r =>
    let '(prob, sentiment) := r in
    ret (np_append w sentiment_collection [CStr i; CProb prob; CStr sentiment]))).

(** What [preprocess_data] returns on the object [s]. *)
Definition preprocess_value (w : World) (s : Self) (file_path : string)
    : result (list (list Z) * list Z) :=
  fst (preprocess_data w file_path {| self := s; trace := [] |}).

End SpecX.

(** * Properties *)

Import Py Keras SA.

(** ** Sentiment bands ([which_sentiment]) *)

Section Which_sentiment.

Lemma Qle_bool_false (a b : Q) : Qle_bool a b = false <-> (b < a)%Q.
Proof.
  split; intros H.
  - apply Qnot_le_lt. intros Hle. apply Qle_bool_iff in Hle. congruence.
  - destruct (Qle_bool a b) eqn:E; [|reflexivity].
    apply Qle_bool_iff in E. exfalso. eapply Qlt_not_le; eauto.
Qed.

(** C1. For every probability [p] and every object whose [positive_cap]
    is larger than its [neutral_cap], [which_sentiment] answers
    "Positive review" exactly when [p >= positive_cap], "Neutral review"
    exactly when [neutral_cap <= p < positive_cap] and "Negative review"
    exactly when [p < neutral_cap]; with the caps 0.6 and 0.4 the
    probabilities 0.75, 0.5, 0.1, 0.6 and 0.4 are answered Positive,
    Neutral, Negative, Positive and Neutral. *)
Theorem which_sentiment_bands (s : Self) (p : Q) :
  (neutral_cap s < positive_cap s)%Q ->
  (which_sentiment s p = "Positive review" <-> (positive_cap s <= p)%Q) /\
  (which_sentiment s p = "Neutral review" <->
     (neutral_cap s <= p)%Q /\ (p < positive_cap s)%Q) /\
  (which_sentiment s p = "Negative review" <-> (p < neutral_cap s)%Q) /\
  ((positive_cap s == 6 # 10)%Q -> (neutral_cap s == 4 # 10)%Q ->
     which_sentiment s (75 # 100)%Q = "Positive review" /\
     which_sentiment s (5 # 10)%Q = "Neutral review" /\
     which_sentiment s (1 # 10)%Q = "Negative review" /\
     which_sentiment s (6 # 10)%Q = "Positive review" /\
     which_sentiment s (4 # 10)%Q = "Neutral review").
Proof.
  intros Hcaps.
  assert (Hgen : forall q,
    (which_sentiment s q = "Positive review" <-> (positive_cap s <= q)%Q) /\
    (which_sentiment s q = "Neutral review" <->
       (neutral_cap s <= q)%Q /\ (q < positive_cap s)%Q) /\
    (which_sentiment s q = "Negative review" <-> (q < neutral_cap s)%Q)).
  { intros q. unfold which_sentiment.
    destruct (Qle_bool (positive_cap s) q) eqn:Ep;
      [apply Qle_bool_iff in Ep | apply Qle_bool_false in Ep;
       destruct (Qle_bool (neutral_cap s) q) eqn:En;
       [apply Qle_bool_iff in En | apply Qle_bool_false in En]];
      repeat split; intros; try discriminate; try lra. }
  destruct (Hgen p) as (H1 & H2 & H3).
  split; [exact H1|]. split; [exact H2|]. split; [exact H3|].
  intros Hp Hn.
  split; [apply (Hgen (75 # 100)%Q); lra|].
  split; [apply (Hgen (5 # 10)%Q); lra|].
  split; [apply (Hgen (1 # 10)%Q); lra|].
  split; [apply (Hgen (6 # 10)%Q); lra|].
  apply (Hgen (4 # 10)%Q); lra.
Qed.

Lemma which_sentiment_bands_witness :
  (neutral_cap Demo.fresh < positive_cap Demo.fresh)%Q /\
  (which_sentiment Demo.fresh (1 # 2)%Q = "Neutral review" <->
     (neutral_cap Demo.fresh <= 1 # 2)%Q /\ (1 # 2 < positive_cap Demo.fresh)%Q) /\
  which_sentiment Demo.fresh (6 # 10)%Q = "Positive review".
Proof.
  assert (Hcaps : (neutral_cap Demo.fresh < positive_cap Demo.fresh)%Q) by reflexivity.
  split; [exact Hcaps|].
  split.
  - apply (which_sentiment_bands Demo.fresh (1 # 2)%Q Hcaps).
  - apply (which_sentiment_bands Demo.fresh (1 # 2)%Q Hcaps); reflexivity.
Defined.

End Which_sentiment.

(** ** Labels ([encode_sentiment]) *)

Section Encode_sentiment.

Lemma lower_char_not_upper (c : ascii) : is_upper (lower_char c) = false.
Proof.
  destruct c as [[] [] [] [] [] [] [] []]; vm_compute; reflexivity.
Qed.

Lemma same_letter_lower (c d : ascii) :
  is_upper d = false ->
  Spec.same_letter c d = Ascii.eqb (lower_char c) d.
Proof.
  intros Hd. unfold Spec.same_letter. rewrite Hd, andb_false_l, orb_false_r.
  unfold lower_char at 2. destruct (is_upper c) eqn:Hc.
  - destruct (Ascii.eqb_spec c d) as [->|Hne]; [congruence|].
    unfold lower_char. rewrite Hc. reflexivity.
  - rewrite andb_false_l, orb_false_r. reflexivity.
Qed.

Lemma eq_ignore_case_lower (x b : string) :
  lower b = b ->
  Spec.eq_ignore_case x b = String.eqb (lower x) b.
Proof.
  revert b. induction x as [|c x IH]; intros [|d b] Hb; simpl; try reflexivity.
  simpl in Hb. injection Hb as Hd Hb.
  rewrite IH by exact Hb.
  rewrite same_letter_lower; [reflexivity|].
  rewrite <- Hd. apply lower_char_not_upper.
Qed.

(** C6. [encode_sentiment] returns 1 for every string equal to
    "positive" under case-insensitive comparison, such as "Positive",
    "POSITIVE" and "positive", and 0 for every other string, such as
    "negative" and the empty string. *)
Theorem encode_sentiment_positive (x : string) :
  (Spec.eq_ignore_case x "positive" = true -> encode_sentiment x = 1) /\
  (Spec.eq_ignore_case x "positive" = false -> encode_sentiment x = 0) /\
  encode_sentiment "Positive" = 1 /\
  encode_sentiment "POSITIVE" = 1 /\
  encode_sentiment "positive" = 1 /\
  encode_sentiment "negative" = 0 /\
  encode_sentiment "" = 0.
Proof.
  unfold encode_sentiment at 1 2.
  rewrite (eq_ignore_case_lower x "positive") by reflexivity.
  repeat split; try reflexivity; intros ->; reflexivity.
Qed.

Lemma encode_sentiment_positive_witness :
  Spec.eq_ignore_case "PoSiTiVe" "positive" = true /\
  encode_sentiment "PoSiTiVe" = 1 /\
  Spec.eq_ignore_case "positives" "positive" = false /\
  encode_sentiment "positives" = 0.
Proof.
  split; [reflexivity|].
  split; [apply (encode_sentiment_positive "PoSiTiVe"); reflexivity|].
  split; [reflexivity|].
  apply (encode_sentiment_positive "positives"); reflexivity.
Defined.

End Encode_sentiment.

(** ** Padding ([pad_sequences] as [preprocess_data] and [predict] call it) *)

Section Padding.

Ltac run :=
  unfold bind, ret, raise, lift, get_self, set_self, emit; cbv beta iota zeta.


Lemma pad_row_post_pre (n : nat) (value : Z) (s : list Z) :
  exists row,
    pad_row (S n) Post Pre value s = Ok row /\
    Spec.padded (S n) (to_int32 value) (List.map to_int32 s) row.
Proof.
  unfold pad_row, slice_last.
  set (trunc := List.map to_int32 (skipn (length s - S n) s)).
  assert (Htrunc : trunc = skipn (length s - S n) (List.map to_int32 s))
    by (unfold trunc; symmetry; apply List.skipn_map).
  assert (Hlen : length trunc = (length s - (length s - S n))%nat)
    by (unfold trunc; rewrite List.length_map; apply List.length_skipn).
  assert (Hle : (length trunc <=? S n)%nat = true) by (apply Nat.leb_le; lia).
  rewrite Hle. eexists; split; [reflexivity|].
  unfold Spec.padded. rewrite List.length_map. split; [|split].
  - rewrite List.length_app, List.repeat_length. apply Nat.leb_le in Hle. lia.
  - intros Hs. rewrite Htrunc.
    replace (length s - S n)%nat with 0%nat by lia.
    change (skipn 0 (List.map to_int32 s)) with (List.map to_int32 s).
    rewrite List.length_map. reflexivity.
  - intros Hs. replace (S n - length trunc)%nat with 0%nat by lia.
    cbn [repeat]. rewrite List.app_nil_r. exact Htrunc.
Qed.

Lemma pad_sequences_post_pre (n : nat) (value : Z) (sequences : list (list Z)) :
  exists rows,
    pad_sequences sequences value Post Pre (S n) = Ok rows /\
    Forall2 (fun s row => Spec.padded (S n) (to_int32 value) (List.map to_int32 s) row)
      sequences rows.
Proof.
  induction sequences as [|s rest IH].
  - exists []. split; [reflexivity | constructor].
  - destruct IH as (rows & Hrows & Hall).
    destruct (pad_row_post_pre n value s) as (row & Hrow & Hpad).
    exists (row :: rows). split.
    + cbn [pad_sequences]. rewrite Hrow, Hrows. reflexivity.
    + constructor; assumption.
Qed.

Lemma series_apply_str {B} (attr : string) (f : string -> B) (texts : list string) :
  series_apply (on_str attr f) (List.map PdStr texts) = Ok (List.map f texts).
Proof.
  induction texts as [|t texts IH]; [reflexivity|].
  cbn [List.map series_apply on_str]. rewrite IH. reflexivity.
Qed.

Lemma str_rows_fst (reviews : list (string * string)) :
  List.map fst (Spec.str_rows reviews) = List.map PdStr (List.map fst reviews).
Proof. unfold Spec.str_rows. rewrite !List.map_map. reflexivity. Qed.

Lemma str_rows_snd (reviews : list (string * string)) :
  List.map snd (Spec.str_rows reviews) = List.map PdStr (List.map snd reviews).
Proof. unfold Spec.str_rows. rewrite !List.map_map. reflexivity. Qed.


Lemma Forall2_right {X Y : Type} (P : X -> Y -> Prop) (Q : Y -> Prop)
    (l : list X) (l' : list Y) :
  Forall2 P l l' -> (forall x y, P x y -> Q y) -> Forall Q l'.
Proof.
  intros H HPQ. induction H as [|x y l l' Hxy _ IH]; constructor; eauto.
Qed.



End Padding.

(** ** The vocabulary ([init_word_index]) and the encoding ([encode_review]) *)

Section Vocabulary.

Lemma fold_insert_lookup (rows : list (string * Z)) (d : gmap string Z) (word : string) :
  fold_left (fun d r => <[fst r := snd r]> d) rows d !! word =
  match Spec.last_row word rows with
  | Some i => Some i
  | None => d !! word
  end.
Proof.
  revert d. induction rows as [|[k v] rows IH]; intros d; simpl; [reflexivity|].
  rewrite IH. destruct (Spec.last_row word rows); [reflexivity|].
  destruct (String.eqb_spec k word) as [->|Hne].
  - apply lookup_insert_eq.
  - apply lookup_insert_ne. exact Hne.
Qed.

Lemma dict_zip_lookup (rows : list (string * Z)) (word : string) :
  dict_zip rows !! word = Spec.last_row word rows.
Proof.
  unfold dict_zip. rewrite fold_insert_lookup, lookup_empty.
  destruct (Spec.last_row word rows); reflexivity.
Qed.

Lemma init_word_index_lookup (w : World) (config : Config) (rows : list (string * Z)) :
  read_word_index w (WORD_INDEX_PATH config) = Ok rows ->
  exists wi : gmap string Z,
    init_word_index w config = Ok wi /\
    wi !! "<PAD>" = Some 0 /\
    wi !! "<START" = Some 1 /\
    wi !! "<UNK>" = Some 2 /\
    wi !! "<UNUSED>" = Some 3 /\
    forall word : string,
      word <> "<PAD>" -> word <> "<START" -> word <> "<UNK>" -> word <> "<UNUSED>" ->
      wi !! word = Spec.last_row word rows.
Proof.
  intros Hread. unfold init_word_index. rewrite Hread.
  eexists. split; [reflexivity|].
  repeat split.
  - rewrite !lookup_insert_ne by discriminate. apply lookup_insert_eq.
  - rewrite !lookup_insert_ne by discriminate. apply lookup_insert_eq.
  - rewrite !lookup_insert_ne by discriminate. apply lookup_insert_eq.
  - apply lookup_insert_eq.
  - intros word H0 H1 H2 H3.
    rewrite !lookup_insert_ne by congruence. apply dict_zip_lookup.
Qed.

(** C7. After [init_word_index] the four reserved tokens (padding, start,
    unknown, unused; keys ["<PAD>"], ["<START"], ["<UNK>"], ["<UNUSED>"])
    are in the mapping with the indices 0, 1, 2 and 3, whatever the CSV
    resource binds them to; every other word has the index the resource
    gives it (the one of its last row), and is absent when the resource
    does not have it. *)
Theorem init_word_index_reserved (w : World) (config : Config)
    (rows : list (string * Z)) :
  read_word_index w (WORD_INDEX_PATH config) = Ok rows ->
  exists wi : gmap string Z,
    init_word_index w config = Ok wi /\
    wi !! "<PAD>" = Some 0 /\
    wi !! "<START" = Some 1 /\
    wi !! "<UNK>" = Some 2 /\
    wi !! "<UNUSED>" = Some 3 /\
    forall word : string,
      ~ In word (List.map fst Spec.reserved) ->
      wi !! word = Spec.last_row word rows.
Proof.
  intros Hread.
  destruct (init_word_index_lookup w config rows Hread)
    as (wi & Hwi & Hpad & Hstart & Hunk & Hunused & Hother).
  exists wi. repeat (split; [assumption|]).
  intros word Hword. apply Hother; intros ->; apply Hword; simpl; tauto.
Qed.

Lemma init_word_index_reserved_witness :
  read_word_index Demo.world (WORD_INDEX_PATH Demo.config)
    = Ok [("good", 4); ("bad", 5); ("<PAD>", 9); ("good", 4)] /\
  ~ In "bad" (List.map fst Spec.reserved) /\
  exists wi : gmap string Z,
    init_word_index Demo.world Demo.config = Ok wi /\
    wi !! "<PAD>" = Some 0 /\
    wi !! "bad" = Some 5.
Proof.
  assert (Hread : read_word_index Demo.world (WORD_INDEX_PATH Demo.config)
                  = Ok [("good", 4); ("bad", 5); ("<PAD>", 9); ("good", 4)])
    by reflexivity.
  assert (Hbad : ~ In "bad" (List.map fst Spec.reserved))
    by (simpl; intros [H|[H|[H|[H|[]]]]]; discriminate H).
  split; [exact Hread|]. split; [exact Hbad|].
  destruct (init_word_index_reserved Demo.world Demo.config _ Hread)
    as (wi & Hwi & Hpad & _ & _ & _ & Hother).
  exists wi. split; [exact Hwi|]. split; [exact Hpad|].
  rewrite (Hother "bad" Hbad). reflexivity.
Defined.

Lemma init_self (w : World) (config : Config) (s : Self) :
  __init__ w config = Ok s ->
  init_word_index w config = Ok (word_index s) /\
  positive_cap s = POSITIVE_CAP config /\
  neutral_cap s = NEUTRAL_CAP config /\
  model s = None.
Proof.
  unfold __init__. destruct (init_word_index w config) as [wi|e]; [|discriminate].
  intros [= <-]. simpl. auto.
Qed.

Lemma init_pad (w : World) (config : Config) (s : Self) :
  __init__ w config = Ok s -> word_index s !! "<PAD>" = Some 0.
Proof.
  intros Hs. apply init_self in Hs as (Hwi & _).
  unfold init_word_index in Hwi.
  destruct (read_word_index w (WORD_INDEX_PATH config)) as [rows|e] eqn:Hread;
    [|discriminate].
  destruct (init_word_index_lookup w config rows Hread) as (wi & Hwi' & Hpad & _).
  unfold init_word_index in Hwi'. rewrite Hread in Hwi'.
  congruence.
Qed.

Lemma lookup_map {X Y : Type} (f : X -> Y) (l : list X) (k : nat) :
  List.map f l !! k = option_map f (l !! k).
Proof.
  revert k. induction l as [|x l IH]; intros [|k]; simpl; auto.
Qed.

(** C3. In an object built by the constructor, a token that is not a key
    of [word_index] is encoded as 0, the very index of ["<PAD>"]; a token
    that is a key is encoded as the index [word_index] gives it. *)
Theorem encode_review_unknown_is_pad (w : World) (config : Config) (s : Self)
    (review : list string) (k : nat) (word : string) :
  __init__ w config = Ok s ->
  text_to_word_sequence (join " " review) !! k = Some word ->
  (word_index s !! word = None ->
     encode_review s review !! k = Some 0 /\ word_index s !! "<PAD>" = Some 0) /\
  (forall i : Z, word_index s !! word = Some i -> encode_review s review !! k = Some i).
Proof.
  intros Hs Hword. unfold encode_review. rewrite lookup_map, Hword. simpl.
  split.
  - intros ->. split; [reflexivity|]. eapply init_pad; eassumption.
  - intros i ->. reflexivity.
Qed.

Lemma encode_review_unknown_is_pad_witness :
  __init__ Demo.world Demo.config = Ok Demo.fresh /\
  text_to_word_sequence (join " " ["It's"; "GOOD,"; "xyzzy"]) !! 2%nat = Some "xyzzy" /\
  word_index Demo.fresh !! "xyzzy" = None /\
  encode_review Demo.fresh ["It's"; "GOOD,"; "xyzzy"] !! 2%nat = Some 0 /\
  word_index Demo.fresh !! "<PAD>" = Some 0.
Proof.
  assert (Hs : __init__ Demo.world Demo.config = Ok Demo.fresh) by (vm_compute; reflexivity).
  assert (Hword : text_to_word_sequence (join " " ["It's"; "GOOD,"; "xyzzy"]) !! 2%nat
                  = Some "xyzzy") by reflexivity.
  assert (Hnone : word_index Demo.fresh !! "xyzzy" = None) by reflexivity.
  split; [exact Hs|]. split; [exact Hword|]. split; [exact Hnone|].
  apply (encode_review_unknown_is_pad Demo.world Demo.config Demo.fresh
           ["It's"; "GOOD,"; "xyzzy"] 2 "xyzzy" Hs Hword).
  exact Hnone.
Defined.

End Vocabulary.

(** ** The name of the checkpoint ([train_model] without [save_as]) *)

Section Checkpoint_name.

Lemma digits_of_uint_acc (d : Decimal.uint) (p : positive) :
  digits (Z.pos p) true (NilEmpty.string_of_uint d) = Some (Z.pos (Pos.of_uint_acc d p)).
Proof.
  revert p. induction d; intros p; cbn [NilEmpty.string_of_uint Pos.of_uint_acc digits];
    try reflexivity;
    match goal with
    | |- context [is_digit ?c] => change (is_digit c) with true; cbv iota
    end;
    match goal with
    | |- digits ?z true _ = Some (Z.pos (Pos.of_uint_acc _ ?q)) =>
        replace z with (Z.pos q) by (unfold digit_val; simpl; lia)
    end; apply IHd.
Qed.

Lemma digits_of_uint (d : Decimal.uint) (prev : bool) :
  digits 0 prev (NilEmpty.string_of_uint d) =
  match d with
  | Decimal.Nil => if prev then Some 0 else None
  | _ => Some (Z.of_N (Pos.of_uint d))
  end.
Proof.
  revert prev. induction d; intros prev;
    cbn [NilEmpty.string_of_uint Pos.of_uint digits]; try reflexivity;
    match goal with
    | |- context [is_digit ?c] => change (is_digit c) with true; cbv iota
    end;
    [ change (10 * 0 + digit_val "0") with 0; rewrite IHd; destruct d; reflexivity
    | apply (digits_of_uint_acc d _) .. ].
Qed.

Lemma rstrip_of_uint (d : Decimal.uint) :
  rstrip (NilEmpty.string_of_uint d) = NilEmpty.string_of_uint d.
Proof.
  induction d; cbn [NilEmpty.string_of_uint rstrip]; try reflexivity;
    match goal with
    | |- context [is_int_space ?c] => change (is_int_space c) with false; cbv iota
    end; rewrite IHd; reflexivity.
Qed.

Lemma int_of_uint (d : Decimal.uint) :
  d <> Decimal.Nil ->
  int (NilEmpty.string_of_uint d) = Ok (Z.of_N (Pos.of_uint d)) /\
  int (String "-" (NilEmpty.string_of_uint d)) = Ok (- Z.of_N (Pos.of_uint d)).
Proof.
  intros Hd. unfold int, strip.
  assert (Hl : lstrip (NilEmpty.string_of_uint d) = NilEmpty.string_of_uint d)
    by (destruct d; reflexivity).
  split.
  - rewrite Hl, rstrip_of_uint.
    pose proof (digits_of_uint d false) as Hdig.
    destruct d; try congruence; cbn [NilEmpty.string_of_uint] in *;
      cbv iota; rewrite Hdig; reflexivity.
  - cbn [lstrip]. change (is_int_space "-") with false. cbv iota.
    cbn [rstrip]. change (is_int_space "-") with false. cbv iota.
    rewrite rstrip_of_uint, digits_of_uint.
    destruct d; try congruence; reflexivity.
Qed.

(** Reading back what [str] writes. *)
Lemma int_str (z : Z) : int (str z) = Ok z.
Proof.
  unfold str. destruct z as [|p|p]; [reflexivity| |];
    cbn [Z.to_int NilZero.string_of_int];
    pose proof (DecimalPos.Unsigned.to_uint_nonnil p) as Hnil;
    destruct (int_of_uint (Pos.to_uint p) Hnil) as [Hpos Hneg];
    rewrite DecimalPos.Unsigned.of_to in Hpos, Hneg;
    unfold NilZero.string_of_uint;
    destruct (Pos.to_uint p); try congruence; assumption.
Qed.

Lemma next_idx_spec (names : list string) :
  (forall i, In i names -> startswith i "my_model" = true ->
             exists idx, int (slice_from 9 i) = Ok idx) ->
  forall curr_idx : Z,
  exists n : Z,
    next_idx curr_idx names = Ok n /\
    curr_idx <= n /\
    (forall idx, Spec.numbered names idx -> idx < n) /\
    (n = curr_idx \/ Spec.numbered names (n - 1)).
Proof.
  induction names as [|i names IH]; intros Hparse curr_idx.
  - exists curr_idx. split; [reflexivity|]. split; [lia|]. split; [|auto].
    intros idx (i & [] & _).
  - assert (Hparse' : forall j, In j names -> startswith j "my_model" = true ->
                                exists idx, int (slice_from 9 j) = Ok idx)
      by (intros j Hj; apply Hparse; right; exact Hj).
    cbn [next_idx]. destruct (startswith i "my_model") eqn:Hpre.
    + destruct (Hparse i (or_introl eq_refl) Hpre) as (idx & Hidx). rewrite Hidx.
      destruct (IH Hparse' (if (curr_idx <=? idx)%Z then idx + 1 else curr_idx))
        as (n & Hn & Hle & Hall & Hmax).
      exists n. split; [exact Hn|].
      assert (Hcurr : curr_idx <= n /\ idx < n)
        by (destruct (Z.leb_spec curr_idx idx); lia).
      split; [apply Hcurr|]. split.
      * intros idx' (j & [<-|Hj] & Hjpre & Hjidx).
        -- rewrite Hidx in Hjidx. injection Hjidx as <-. apply Hcurr.
        -- apply Hall. exists j. auto.
      * destruct Hmax as [->|(j & Hj & Hjpre & Hjidx)].
        -- destruct (Z.leb_spec curr_idx idx); [right|left; reflexivity].
           exists i. split; [left; reflexivity|]. split; [exact Hpre|].
           rewrite Hidx. f_equal. lia.
        -- right. exists j. split; [right; exact Hj|]. auto.
    + destruct (IH Hparse' curr_idx) as (n & Hn & Hle & Hall & Hmax).
      exists n. split; [exact Hn|]. split; [exact Hle|]. split.
      * intros idx' (j & [<-|Hj] & Hjpre & Hjidx); [congruence|].
        apply Hall. exists j. auto.
      * destruct Hmax as [->|(j & Hj & Hjpre & Hjidx)]; [left; reflexivity|].
        right. exists j. split; [right; exact Hj|]. auto.
Qed.

(** C2, as the code has it.  When every entry of [./models] that starts
    with [my_model] carries an integer after its ninth character, the
    generated name is [./models/my_model_<N>] where [N] is the least
    non-negative integer larger than every integer carried by such an
    entry: 0 when there is none or when they are all negative, and one more
    than the largest of them otherwise.  No entry of the directory is named
    [my_model_<N>]. *)
Theorem default_save_as_after_max (names : list string) :
  (forall i, In i names -> startswith i "my_model" = true ->
             exists idx, int (slice_from 9 i) = Ok idx) ->
  exists n : Z,
    default_save_as names = Ok ("./models/my_model_" ++ str n) /\
    0 <= n /\
    (forall idx, Spec.numbered names idx -> idx < n) /\
    (forall k, 0 <= k -> (forall idx, Spec.numbered names idx -> idx < k) -> n <= k) /\
    (n = 0 \/ Spec.numbered names (n - 1)) /\
    ~ In ("my_model_" ++ str n) names.
Proof.
  intros Hparse.
  destruct (next_idx_spec names Hparse 0) as (n & Hn & Hle & Hall & Hmax).
  exists n. unfold default_save_as. rewrite Hn.
  split; [reflexivity|]. split; [exact Hle|]. split; [exact Hall|].
  split.
  { intros k Hk Hbound. destruct Hmax as [->|Hnum]; [exact Hk|].
    specialize (Hbound _ Hnum). lia. }
  split; [exact Hmax|].
  intros Hin.
  assert (Hlt : n < n); [|lia].
  apply Hall. exists ("my_model_" ++ str n).
  split; [exact Hin|]. split; [reflexivity|].
  cbn [slice_from String.append]. apply int_str.
Qed.

Lemma default_save_as_after_max_witness :
  (forall i, In i ["my_model_0"; "my_model_1"; "my_model_3"] ->
             startswith i "my_model" = true ->
             exists idx, int (slice_from 9 i) = Ok idx) /\
  exists n : Z,
    default_save_as ["my_model_0"; "my_model_1"; "my_model_3"]
      = Ok ("./models/my_model_" ++ str n) /\
    n = 4.
Proof.
  assert (Hparse : forall i, In i ["my_model_0"; "my_model_1"; "my_model_3"] ->
                             startswith i "my_model" = true ->
                             exists idx, int (slice_from 9 i) = Ok idx).
  { intros i [<-|[<-|[<-|[]]]] _; eexists; reflexivity. }
  split; [exact Hparse|].
  destruct (default_save_as_after_max _ Hparse) as (n & Hn & _ & Hall & _ & Hmax & _).
  exists n. split; [exact Hn|].
  assert (H3 : 3 < n).
  { apply Hall. exists "my_model_3". split; [simpl; tauto|]. split; reflexivity. }
  destruct Hmax as [->|(i & [<-|[<-|[<-|[]]]] & _ & Hi)];
    [lia | match type of Hi with
           | ?l = _ => let v := eval vm_compute in l in change l with v in Hi
           end; injection Hi as Hi; lia ..].
Defined.

(** C2, as the specification states it, fails: with [my_model_0],
    [my_model_1] and [my_model_3] in the directory the generated name is
    [my_model_4], although 2 is the smallest number not taken. *)
Lemma default_save_as_not_lowest_unused :
  default_save_as ["my_model_0"; "my_model_1"; "my_model_3"] = Ok "./models/my_model_4" /\
  default_save_as ["my_model_0"; "my_model_1"; "my_model_3"] <> Ok "./models/my_model_2" /\
  ~ In "my_model_2" ["my_model_0"; "my_model_1"; "my_model_3"] /\
  List.last (trace (snd (train_model Demo.world Demo.config None Demo.st_fresh))) Fit
    = Save "./models/my_model_4".
Proof.
  split; [reflexivity|]. split; [discriminate|]. split.
  - simpl. intros [H|[H|[H|[]]]]; discriminate H.
  - vm_compute. reflexivity.
Qed.

End Checkpoint_name.

(** ** Prediction ([predict], [predict_from_file]) *)

Section Prediction.
Import SpecX.

Ltac run :=
  unfold bind, ret, raise, lift, get_self, set_self, emit; cbv beta iota zeta.

(** [predict] leaves the object as it is, and what it returns depends on
    the object only. *)
Lemma predict_run (review : string) (st : State) :
  fst (predict review st) = Spec.predict_value (self st) review /\
  self (snd (predict review st)) = self st.
Proof.
  unfold Spec.predict_value, predict, get_model. run. cbn [self].
  destruct (getitem _ _); [|split; reflexivity].
  destruct (pad_sequences _ _ _ _ _); [|split; reflexivity].
  destruct (model (self st)); [|split; reflexivity].
  destruct (model_predict _ _); [|split; reflexivity].
  destruct (item00 _); split; reflexivity.
Qed.

(** What a call of [predict] adds to the trace. *)
Lemma predict_effect (text : string) (st : State) :
  exists evs : list event,
    snd (predict text st) = {| self := self st; trace := (trace st ++ evs)%list |} /\
    (evs = [] \/ evs = [Predict (user_review (self st) text)]) /\
    (forall r, fst (predict text st) = Ok r ->
               evs = [Predict (user_review (self st) text)]).
Proof.
  unfold predict, get_model, user_review. run. cbn [self trace].
  destruct st as [s tr]. cbn [self trace].
  destruct (getitem (word_index s) "<PAD>") as [pad|e].
  2:{ exists []. rewrite List.app_nil_r. cbn. split; [reflexivity|].
      split; [auto | intros r H; discriminate H]. }
  destruct (pad_sequences _ pad Post Pre 500) as [batch|e].
  2:{ exists []. rewrite List.app_nil_r. cbn. split; [reflexivity|].
      split; [auto | intros r H; discriminate H]. }
  destruct (model s) as [m|].
  2:{ exists []. rewrite List.app_nil_r. cbn. split; [reflexivity|].
      split; [auto | intros r H; discriminate H]. }
  exists [Predict batch]. cbn [self trace].
  destruct (model_predict m batch) as [prob|e]; [destruct (item00 prob)|];
    cbn; auto.
Qed.

Lemma coerce_idem (w : World) (c : cell) : coerce w (coerce w c) = coerce w c.
Proof. destruct c; reflexivity. Qed.

Lemma coerce_rows_idem (w : World) (rows : list (list cell)) :
  List.map (List.map (coerce w)) (List.map (List.map (coerce w)) rows)
  = List.map (List.map (coerce w)) rows.
Proof.
  rewrite List.map_map. apply List.map_ext. intros row.
  rewrite List.map_map. apply List.map_ext. intros c. apply coerce_idem.
Qed.

Lemma coerce_records (w : World) (s : Self) (texts : list string) :
  List.map (List.map (coerce w)) (List.map (Spec.record w s) texts)
  = List.map (Spec.record w s) texts.
Proof.
  rewrite List.map_map. apply List.map_ext. intros text. unfold Spec.record.
  destruct (Spec.predict_value s text) as [[prob sentiment]|e]; reflexivity.
Qed.

(** The loop over reviews that are [str] and on which [predict] succeeds:
    the collection is written as text at the first review, and gets one
    record per review. *)
Lemma for_each_predict_trace (w : World) (data : list string) (s : Self) :
  (forall text, In text data -> exists r, Spec.predict_value s text = Ok r) ->
  forall (acc : list (list cell)) (tr : list event),
    for_each (List.map PdStr data) acc (loop_body w) {| self := s; trace := tr |}
    = (Ok match data with
          | [] => acc
          | _ => (List.map (List.map (coerce w)) acc
                    ++ List.map (Spec.record w s) data)%list
          end,
       {| self := s;
          trace := (tr ++ List.map (fun t => Predict (user_review s t)) data)%list |}).
Proof.
  induction data as [|text data IH]; intros Hok acc tr.
  - cbn [for_each List.map]. rewrite !List.app_nil_r. reflexivity.
  - cbn [for_each List.map]. unfold bind at 1. unfold loop_body at 1.
    unfold bind at 1. unfold lift at 1. cbn [on_str]. unfold bind at 1.
    pose (st := {| self := s; trace := tr |}). fold st.
    destruct (predict_run text st) as [Hval _].
    destruct (predict_effect text st) as (evs & Hst & _ & Hevs).
    destruct (Hok text (or_introl eq_refl)) as ([prob sentiment] & Hr).
    subst st. cbn [self] in *. rewrite Hr in Hval.
    specialize (Hevs _ Hval). subst evs.
    destruct (predict text _) as [r st1]. cbn [fst snd] in Hval, Hst. subst r st1.
    unfold ret at 1. cbn [self trace].
    rewrite IH by (intros t Ht; apply Hok; right; exact Ht).
    rewrite <- !List.app_assoc. f_equal. f_equal.
    assert (Hrec : List.map (coerce w) [CStr text; CProb prob; CStr sentiment]
                   = Spec.record w s text)
      by (unfold Spec.record; rewrite Hr; reflexivity).
    unfold np_append. rewrite Hrec.
    destruct data as [|text' data]; [reflexivity|].
    rewrite List.map_app, coerce_rows_idem. cbn [List.map].
    assert (Hc : List.map (coerce w) (Spec.record w s text) = Spec.record w s text).
    { rewrite <- Hrec. rewrite List.map_map. apply List.map_ext. intros c. apply coerce_idem. }
    rewrite Hc, <- List.app_assoc. reflexivity.
Qed.

Lemma predict_from_file_unfold (w : World) (file_path : string) (texts : list string)
    (st : State) :
  reviews_of w file_path texts ->
  predict_from_file w file_path st
  = bind (for_each (List.map PdStr texts) [[CInt 0; CInt 0; CInt 0]] (loop_body w))
      (fun sentiment_collection => ret (List.tl sentiment_collection))
      {| self := self st; trace := (trace st ++ [read_event file_path])%list |}.
Proof.
  unfold predict_from_file, read_event.
  intros [(Hcsv & Hread) | (Hcsv & Htxt & lines & Hread & ->)].
  - rewrite Hcsv. run. rewrite Hread. reflexivity.
  - rewrite Hcsv, Htxt. run. rewrite Hread. reflexivity.
Qed.

Lemma predict_rows_records (w : World) (file_path : string) (texts : list string)
    (st : State) :
  reviews_of w file_path texts ->
  (forall text, In text texts -> exists r, fst (predict text st) = Ok r) ->
  predict_from_file w file_path st
  = (Ok (List.map (Spec.record w (self st)) texts),
     {| self := self st;
        trace := (trace st ++ read_event file_path
                    :: List.map (fun t => Predict (user_review (self st) t)) texts)%list |}).
Proof.
  intros Hfile Hok. rewrite (predict_from_file_unfold w file_path texts st Hfile).
  unfold bind at 1. rewrite for_each_predict_trace.
  - unfold ret. rewrite <- List.app_assoc. destruct texts; reflexivity.
  - intros text Htext. rewrite <- (proj1 (predict_run text st)). apply Hok. exact Htext.
Qed.




End Prediction.

(** ** Files of another format ([predict_from_file]) *)

Section Other_format.

(** A path that ends neither in [.csv] nor in [.txt] reaches the [raise]
    statement at once: nothing is read, nothing is predicted, and the
    exception is the [TypeError] of a [raise] applied to a [str]. *)
Lemma predict_from_file_other_format (w : World) (file_path : string) (st : State) :
  endswith file_path ".csv" = false ->
  endswith file_path ".txt" = false ->
  predict_from_file w file_path st
  = (Raise (mkExn TypeError "exceptions must derive from BaseException"), st).
Proof.
  intros Hcsv Htxt. unfold predict_from_file. rewrite Hcsv, Htxt. reflexivity.
Qed.

(** C8, at the path [reviews.json].  The call raises at once and leaves
    the object and the trace as they were (no file read, no review
    predicted, no record made); the exception raised is a [TypeError],
    not an error that tells of the unsupported format. *)
Theorem predict_from_file_json (w : World) (st : State) :
  predict_from_file w "reviews.json" st
  = (Raise (mkExn TypeError "exceptions must derive from BaseException"), st).
Proof.
  apply predict_from_file_other_format; reflexivity.
Qed.

End Other_format.

(** ** Loading a saved model ([load_saved_model]) *)

Section Loading.

Ltac run :=
  unfold bind, ret, raise, lift, get_self, set_self, emit; cbv beta iota zeta.

(** [preprocess_data] reads the file and leaves the object as it is. *)
Lemma preprocess_data_run (w : World) (file_path : string) (st : State) :
  snd (preprocess_data w file_path st)
  = {| self := self st; trace := (trace st ++ [ReadCsv file_path])%list |}.
Proof.
  unfold preprocess_data. run. cbn [self].
  destruct (read_labeled w file_path); [|reflexivity].
  destruct (series_apply (on_str "split" split) _); [|reflexivity].
  destruct (getitem _ _); [|reflexivity].
  destruct (pad_sequences _ _ _ _ _); [|reflexivity].
  destruct (series_apply (on_str "lower" encode_sentiment) _); reflexivity.
Qed.

(** C9. Whatever the path, when the test data are read and
    [keras.models.load_model] fails with an error [e], [load_saved_model]
    logs [e] with [logger.fatal] and raises [e] itself; the model was
    asked for once, nothing is done after the log entry, and the [model]
    attribute is the one held before the call. *)
Theorem load_saved_model_failure (w : World) (config : Config)
    (load_path : option string) (st : State) (e : exn)
    (test : list (list Z) * list Z) :
  fst (preprocess_data w (TEST_FILE_PATH config) st) = Ok test ->
  load_model w load_path = Raise e ->
  is_Exception e = true ->
  exists st' : State,
    load_saved_model w config load_path st = (Raise e, st') /\
    trace st' = (trace st ++ [ReadCsv (TEST_FILE_PATH config);
                              LoadModel load_path; LogFatal e])%list /\
    model (self st') = model (self st).
Proof.
  intros Htest Hload Hexn.
  pose proof (preprocess_data_run w (TEST_FILE_PATH config) st) as Hst.
  unfold load_saved_model. unfold bind at 1.
  destruct (preprocess_data w (TEST_FILE_PATH config) st) as [r st1].
  cbn [fst snd] in Htest, Hst. subst r st1. destruct test as [test_data test_labels].
  unfold try_except. run. cbn [self trace]. rewrite Hload, Hexn.
  eexists. split; [reflexivity|]. cbn [self trace].
  split; [|reflexivity].
  rewrite <- !List.app_assoc. reflexivity.
Qed.

Lemma load_saved_model_failure_witness :
  exists st' : State,
    load_saved_model Demo.world Demo.config (Some "./models/nope") Demo.st_loaded
    = (Raise (Demo.no_such_file "./models/nope"), st') /\
    trace st' = [ReadCsv "test.csv"; LoadModel (Some "./models/nope");
                 LogFatal (Demo.no_such_file "./models/nope")] /\
    model (self st') = Some Demo.net.
Proof.
  assert (Htest : exists test,
            fst (preprocess_data Demo.world (TEST_FILE_PATH Demo.config) Demo.st_loaded)
            = Ok test) by (eexists; vm_compute; reflexivity).
  destruct Htest as (test & Htest).
  assert (Hload : load_model Demo.world (Some "./models/nope")
                  = Raise (Demo.no_such_file "./models/nope")) by reflexivity.
  assert (Hexn : is_Exception (Demo.no_such_file "./models/nope") = true) by reflexivity.
  destruct (load_saved_model_failure Demo.world Demo.config (Some "./models/nope")
              Demo.st_loaded _ test Htest Hload Hexn) as (st' & Hrun & Htrace & Hmodel).
  exists st'. split; [exact Hrun|]. split; [exact Htrace | exact Hmodel].
Defined.

(** C10, as the code has it.  When [load_saved_model] raises [e], one of
    three cases holds.  Reading the test data raised [e]: the object is as
    it was before the call.  The test data were read and [load_model]
    raised [e]: the object is as it was before the call.  The test data
    were read, the model [m] was deserialized and its evaluation on these
    data raised [e]: [loss], [accuracy] and the other attributes are as
    before, while [model] holds [m]. *)
Theorem load_saved_model_error_state (w : World) (config : Config)
    (load_path : option string) (st st' : State) (e : exn) :
  load_saved_model w config load_path st = (Raise e, st') ->
  (fst (preprocess_data w (TEST_FILE_PATH config) st) = Raise e /\
   self st' = self st) \/
  (exists test : list (list Z) * list Z,
     fst (preprocess_data w (TEST_FILE_PATH config) st) = Ok test /\
     load_model w load_path = Raise e /\
     self st' = self st) \/
  (exists (test : list (list Z) * list Z) (m : Model),
     fst (preprocess_data w (TEST_FILE_PATH config) st) = Ok test /\
     load_model w load_path = Ok m /\
     model_evaluate m (fst test) (snd test) = Raise e /\
     model (self st') = Some m /\
     loss (self st') = loss (self st) /\
     accuracy (self st') = accuracy (self st) /\
     word_index (self st') = word_index (self st) /\
     positive_cap (self st') = positive_cap (self st) /\
     neutral_cap (self st') = neutral_cap (self st)).
Proof.
  pose proof (preprocess_data_run w (TEST_FILE_PATH config) st) as Hst.
  unfold load_saved_model. unfold bind at 1.
  destruct (preprocess_data w (TEST_FILE_PATH config) st) as [[[test_data test_labels]|e0] st1];
    cbn [fst snd] in *; subst st1.
  - unfold try_except, get_model, model_evaluate_, set_loss_accuracy, set_model.
    run. cbn [self trace].
    destruct (load_model w load_path) as [m|e1].
    + cbn [self trace model].
      destruct (model_evaluate m test_data test_labels) as [la|e2] eqn:Heval;
        [discriminate|].
      intros [= <- <-]. right. right. exists (test_data, test_labels), m.
      cbn [fst snd self model loss accuracy word_index positive_cap neutral_cap].
      auto 12.
    + destruct (is_Exception e1); intros [= <- <-]; right; left;
        exists (test_data, test_labels); cbn [self]; auto.
  - intros [= <- <-]. left. cbn [self]. auto.
Qed.

Lemma load_saved_model_error_state_witness :
  exists (st' : State) (e : exn),
    load_saved_model Demo.world Demo.config (Some "./models/nope") Demo.st_loaded
    = (Raise e, st') /\
    self st' = self Demo.st_loaded.
Proof.
  destruct (load_saved_model Demo.world Demo.config (Some "./models/nope") Demo.st_loaded)
    as [r st'] eqn:Hrun.
  assert (Hr : r = Raise (Demo.no_such_file "./models/nope")).
  { apply (f_equal fst) in Hrun. cbn [fst] in Hrun. rewrite <- Hrun.
    vm_compute. reflexivity. }
  subst r. exists st', (Demo.no_such_file "./models/nope").
  split; [reflexivity|].
  destruct (load_saved_model_error_state Demo.world Demo.config _ _ _ _ Hrun)
    as [(_ & Hself) | [(test & _ & _ & Hself) | (test & m & _ & Hload & _)]].
  - exact Hself.
  - exact Hself.
  - discriminate Hload.
Defined.

(** C10, as stated, fails: the model of [./models/my_model_1] is
    deserialized and cannot be evaluated; the call raises, and the
    [model] attribute is no longer the model held before the call. *)
Lemma load_saved_model_not_atomic :
  fst (load_saved_model Demo.world Demo.config (Some "./models/my_model_1") Demo.st_loaded)
  = Raise (mkExn RuntimeError "You must compile your model before training/testing.") /\
  model (self (snd (load_saved_model Demo.world Demo.config
                      (Some "./models/my_model_1") Demo.st_loaded)))
  = Some Demo.uncompiled /\
  model (self Demo.st_loaded) = Some Demo.net /\
  Some Demo.uncompiled <> Some Demo.net.
Proof.
  split; [vm_compute; reflexivity|].
  split; [vm_compute; reflexivity|].
  split; [reflexivity|].
  intros H. apply (f_equal (fun o => match o with
                                     | Some m => model_evaluate m [] []
                                     | None => Ok (0, 0)%Q
                                     end)) in H.
  discriminate H.
Qed.

End Loading.

(** * Further properties *)

(** ** The attributes set by the constructor are never changed *)

Section Frozen.
Import SpecX.

Lemma frozen_refl (s : Self) : frozen s s.
Proof. unfold frozen. auto. Qed.

Lemma frozen_trans (s1 s2 s3 : Self) : frozen s1 s2 -> frozen s2 s3 -> frozen s1 s3.
Proof. unfold frozen. intros (? & ? & ?) (? & ? & ?). repeat split; congruence. Qed.

Lemma keeps_ret {A} (a : A) : keeps (ret a).
Proof. intros st. apply frozen_refl. Qed.

Lemma keeps_raise {A} (e : exn) : keeps (@raise A e).
Proof. intros st. apply frozen_refl. Qed.

Lemma keeps_lift {A} (r : result A) : keeps (lift r).
Proof. intros st. apply frozen_refl. Qed.

Lemma keeps_get_self : keeps get_self.
Proof. intros st. apply frozen_refl. Qed.

Lemma keeps_emit (ev : event) : keeps (emit ev).
Proof. intros st. apply frozen_refl. Qed.

Lemma keeps_set_model (m : Model) : keeps (set_model m).
Proof. intros st. unfold frozen. cbn. auto. Qed.

Lemma keeps_set_loss_accuracy (la : Q * Q) : keeps (set_loss_accuracy la).
Proof. intros st. unfold frozen. cbn. auto. Qed.

Lemma keeps_bind {A B} (c : M A) (k : A -> M B) :
  keeps c -> (forall a, keeps (k a)) -> keeps (bind c k).
Proof.
  intros Hc Hk st. unfold bind. specialize (Hc st).
  destruct (c st) as [[a|e] st1]; cbn [snd] in *; [|exact Hc].
  eapply frozen_trans; [exact Hc | apply Hk].
Qed.

Lemma keeps_try_except {A} (c : M A) (h : exn -> M A) :
  keeps c -> (forall e, keeps (h e)) -> keeps (try_except c h).
Proof.
  intros Hc Hh st. unfold try_except. specialize (Hc st).
  destruct (c st) as [[a|e] st1]; cbn [snd] in *; [exact Hc|].
  destruct (is_Exception e); [|exact Hc].
  eapply frozen_trans; [exact Hc | apply Hh].
Qed.

Lemma keeps_for_each {A B} (l : list A) (body : B -> A -> M B) :
  (forall acc x, keeps (body acc x)) -> forall acc, keeps (for_each l acc body).
Proof.
  intros Hbody. induction l as [|x l IH]; intros acc; cbn [for_each].
  - apply keeps_ret.
  - apply keeps_bind; [apply Hbody | intros acc'; apply IH].
Qed.

Create HintDb keeps.
#[local] Hint Resolve keeps_ret keeps_raise keeps_lift keeps_get_self keeps_emit
  keeps_set_model keeps_set_loss_accuracy : keeps.

Ltac keeps_step :=
  match goal with
  | |- keeps (bind _ _) => apply keeps_bind; [|intros ?]
  | |- keeps (try_except _ _) => apply keeps_try_except; [|intros ?]
  | |- keeps (for_each _ _ _) => apply keeps_for_each; intros ? ?
  | |- keeps (let '(_, _) := ?p in _) => destruct p
  | |- keeps (match ?o with Some _ => _ | None => _ end) => destruct o
  | |- keeps (if ?b then _ else _) => destruct b
  | |- keeps _ => solve [auto with keeps]
  end.

Lemma keeps_get_model : keeps get_model.
Proof. unfold get_model. repeat keeps_step. Qed.

Lemma keeps_preprocess_data (w : World) (file_path : string) :
  keeps (preprocess_data w file_path).
Proof. unfold preprocess_data. repeat keeps_step. Qed.

Lemma keeps_predict (review : string) : keeps (predict review).
Proof. unfold predict. repeat keeps_step. apply keeps_get_model. Qed.

Lemma keeps_train_model (w : World) (config : Config) (save_as : option string) :
  keeps (train_model w config save_as).
Proof.
  unfold train_model, model_evaluate_.
  repeat (keeps_step || apply keeps_preprocess_data || apply keeps_get_model).
Qed.

Lemma keeps_load_saved_model (w : World) (config : Config) (load_path : option string) :
  keeps (load_saved_model w config load_path).
Proof.
  unfold load_saved_model, model_evaluate_.
  repeat (keeps_step || apply keeps_preprocess_data || apply keeps_get_model).
Qed.

Lemma keeps_predict_from_file (w : World) (file_path : string) :
  keeps (predict_from_file w file_path).
Proof.
  unfold predict_from_file, predict_rows.
  repeat (keeps_step || apply keeps_predict).
Qed.

(** X1. No method changes [word_index], [positive_cap] or [neutral_cap]:
    after [preprocess_data], [train_model], [load_saved_model], [predict]
    and [predict_from_file], whether they return or raise, the three
    attributes are those held before the call. *)
Theorem constructor_attributes_frozen (w : World) (config : Config) (st : State) :
  (forall file_path, frozen (self st) (self (snd (preprocess_data w file_path st)))) /\
  (forall save_as, frozen (self st) (self (snd (train_model w config save_as st)))) /\
  (forall load_path, frozen (self st) (self (snd (load_saved_model w config load_path st)))) /\
  (forall review, frozen (self st) (self (snd (predict review st)))) /\
  (forall file_path, frozen (self st) (self (snd (predict_from_file w file_path st)))).
Proof.
  split; [intros p; apply keeps_preprocess_data|].
  split; [intros p; apply keeps_train_model|].
  split; [intros p; apply keeps_load_saved_model|].
  split; [intros p; apply keeps_predict|].
  intros p; apply keeps_predict_from_file.
Qed.

End Frozen.

(** ** More on the sentiment bands and on the labels *)

Section Bands.
Import SpecX.

(** X2. When [positive_cap] is not larger than [neutral_cap],
    [which_sentiment] never answers "Neutral review": it answers
    "Positive review" from [positive_cap] on and "Negative review" below
    it, and [neutral_cap] plays no part. *)
Theorem which_sentiment_caps_misordered (s : Self) (p : Q) :
  (positive_cap s <= neutral_cap s)%Q ->
  which_sentiment s p <> "Neutral review" /\
  (which_sentiment s p = "Positive review" <-> (positive_cap s <= p)%Q) /\
  (which_sentiment s p = "Negative review" <-> (p < positive_cap s)%Q).
Proof.
  intros Hcaps. unfold which_sentiment.
  destruct (Qle_bool (positive_cap s) p) eqn:Ep;
    [apply Qle_bool_iff in Ep | apply Qle_bool_false in Ep;
     destruct (Qle_bool (neutral_cap s) p) eqn:En;
     [apply Qle_bool_iff in En | apply Qle_bool_false in En]];
    repeat split; intros; try discriminate; try lra.
Qed.

Lemma which_sentiment_caps_misordered_witness :
  let s := {| word_index := ∅; positive_cap := (5 # 10)%Q; neutral_cap := (5 # 10)%Q;
              model := None; loss := None; accuracy := None |} in
  (positive_cap s <= neutral_cap s)%Q /\
  which_sentiment s (5 # 10)%Q <> "Neutral review".
Proof.
  intros s.
  assert (Hcaps : (positive_cap s <= neutral_cap s)%Q) by (cbn; lra).
  split; [exact Hcaps|].
  apply (which_sentiment_caps_misordered s (5 # 10)%Q Hcaps).
Defined.

(** X3. Whatever the two caps are, [which_sentiment] is monotone: a
    larger probability never gets a lower answer (Negative below Neutral
    below Positive), and equal probabilities get the same answer. *)
Theorem which_sentiment_monotone (s : Self) (p q : Q) :
  (p <= q)%Q ->
  (rank (which_sentiment s p) <= rank (which_sentiment s q))%nat /\
  ((q <= p)%Q -> which_sentiment s p = which_sentiment s q).
Proof.
  intros Hpq. unfold which_sentiment.
  destruct (Qle_bool (positive_cap s) p) eqn:Ep, (Qle_bool (positive_cap s) q) eqn:Eq,
           (Qle_bool (neutral_cap s) p) eqn:Enp, (Qle_bool (neutral_cap s) q) eqn:Enq;
    repeat match goal with
           | H : Qle_bool _ _ = true |- _ => apply Qle_bool_iff in H
           | H : Qle_bool _ _ = false |- _ => apply Qle_bool_false in H
           end;
    try (exfalso; lra);
    (split; [cbn; lia | intros Hqp; try reflexivity; exfalso; lra]).
Qed.

Lemma which_sentiment_monotone_witness :
  ((4 # 10) <= (6 # 10))%Q /\
  (rank (which_sentiment Demo.fresh (4 # 10)%Q)
   <= rank (which_sentiment Demo.fresh (6 # 10)%Q))%nat.
Proof.
  assert (Hpq : ((4 # 10) <= (6 # 10))%Q) by lra.
  split; [exact Hpq|].
  apply (which_sentiment_monotone Demo.fresh (4 # 10)%Q (6 # 10)%Q Hpq).
Defined.

End Bands.

Section Labels.
Import SpecX.

Lemma lower_occurs (x b : string) (c : ascii) :
  lower x = b -> occurs c x -> occurs (lower_char c) b.
Proof.
  intros <-. induction x as [|a x IH]; cbn [occurs lower]; [tauto|].
  intros [->|H]; [left; reflexivity | right; apply IH; exact H].
Qed.

Lemma lower_char_space (c : ascii) : is_space c = true -> lower_char c = c.
Proof.
  destruct c as [[] [] [] [] [] [] [] []]; vm_compute; intros H;
    try reflexivity; discriminate H.
Qed.

Lemma space_not_in_positive (c : ascii) :
  is_space c = true -> ~ occurs (lower_char c) "positive".
Proof.
  intros Hc. rewrite (lower_char_space c Hc). cbn [occurs].
  intros H; repeat (destruct H as [H|H]; [rewrite <- H in Hc; discriminate Hc|]).
  contradiction.
Qed.

(** X4. [encode_sentiment] does not trim its argument: a label that holds
    a white-space character anywhere, such as ["positive "] or a label
    ended by a line feed, is encoded as 0. *)
Theorem encode_sentiment_no_trim (x : string) (c : ascii) :
  occurs c x -> is_space c = true -> encode_sentiment x = 0.
Proof.
  intros Hc Hsp. unfold encode_sentiment.
  destruct (String.eqb_spec (lower x) "positive") as [Heq|Hne]; [|reflexivity].
  exfalso. apply (space_not_in_positive c Hsp).
  apply (lower_occurs x _ c Heq Hc).
Qed.

Lemma encode_sentiment_no_trim_witness :
  occurs " " "positive " /\ is_space " " = true /\ encode_sentiment "positive " = 0.
Proof.
  assert (Hc : occurs " " "positive ") by (cbn; tauto).
  assert (Hsp : is_space " " = true) by reflexivity.
  split; [exact Hc|]. split; [exact Hsp|].
  apply (encode_sentiment_no_trim "positive " " " Hc Hsp).
Defined.

End Labels.

(** ** More on the encoding of reviews *)

Section Tokens.
Import SpecX.

Lemma rev_app_occurs (c : ascii) (s acc : string) :
  occurs c (String.rev_app s acc) <-> occurs c s \/ occurs c acc.
Proof.
  revert acc. induction s as [|a s IH]; intros acc; cbn [String.rev_app occurs].
  - tauto.
  - rewrite IH. cbn [occurs]. tauto.
Qed.

Lemma fields_occurs (is_sep : ascii -> bool) (s cur tok : string) (c : ascii) :
  In tok (fields is_sep cur s) -> occurs c tok ->
  occurs c cur \/ (occurs c s /\ is_sep c = false).
Proof.
  revert cur. induction s as [|a s IH]; intros cur; cbn [fields].
  - intros [<-|[]] Hc. apply rev_app_occurs in Hc. cbn [occurs] in Hc. tauto.
  - destruct (is_sep a) eqn:Ha.
    + intros [<-|Hin] Hc.
      * apply rev_app_occurs in Hc. cbn [occurs] in Hc. tauto.
      * destruct (IH _ Hin Hc) as [[]|[H1 H2]]. right. cbn [occurs]. tauto.
    + intros Hin Hc. destruct (IH _ Hin Hc) as [[<-|H]|[H1 H2]]; cbn [occurs]; auto.
  Qed.

Lemma translate_occurs (c : ascii) (s : string) :
  occurs c (translate s) -> c = " "%char \/ is_filtered c = false.
Proof.
  induction s as [|a s IH]; cbn [translate occurs]; [tauto|].
  intros [H|H]; [|auto].
  destruct (is_filtered a) eqn:Ha; [left; congruence | right; congruence].
Qed.

(** The words that Keras makes of a text hold no filtered character. *)
Lemma word_not_filtered (input_text word : string) (c : ascii) :
  In word (text_to_word_sequence input_text) -> occurs c word -> is_filtered c = false.
Proof.
  unfold text_to_word_sequence. intros Hin Hc.
  apply List.filter_In in Hin as [Hin _].
  destruct (fields_occurs _ _ _ _ _ Hin Hc) as [[]|[Htr Hsep]].
  destruct (translate_occurs _ _ Htr) as [->|H]; [discriminate Hsep | exact H].
Qed.

Lemma word_not_reserved (input_text word : string) :
  In word (text_to_word_sequence input_text) ->
  word <> "<PAD>" /\ word <> "<START" /\ word <> "<UNK>" /\ word <> "<UNUSED>".
Proof.
  intros Hin.
  assert (H : ~ occurs "<" word).
  { intros Hc. pose proof (word_not_filtered _ _ _ Hin Hc) as Hf. discriminate Hf. }
  repeat split; intros ->; apply H; cbn; tauto.
Qed.

(** X5. In an object built by the constructor, the four reserved entries
    are never met by [encode_review]: every word that Keras makes of a
    review is free of the character [<], so that the encoding of a review
    is read from the rows of the CSV resource alone, with 0 for the words
    the resource does not have. *)
Theorem encode_review_from_rows (w : World) (config : Config) (s : Self)
    (rows : list (string * Z)) (review : list string) :
  __init__ w config = Ok s ->
  read_word_index w (WORD_INDEX_PATH config) = Ok rows ->
  encode_review s review
  = List.map (row_index rows) (text_to_word_sequence (join " " review)).
Proof.
  intros Hs Hrows. apply init_self in Hs as (Hwi & _).
  destruct (init_word_index_lookup w config rows Hrows) as (wi & Hwi' & _ & _ & _ & _ & Hother).
  assert (wi = word_index s) as -> by congruence.
  unfold encode_review. apply List.map_ext_in. intros word Hword.
  destruct (word_not_reserved _ _ Hword) as (H0 & H1 & H2 & H3).
  unfold row_index. rewrite (Hother word H0 H1 H2 H3). reflexivity.
Qed.

Lemma encode_review_from_rows_witness :
  encode_review Demo.fresh ["<PAD>"; "good"]
  = List.map (row_index [("good", 4); ("bad", 5); ("<PAD>", 9); ("good", 4)])
      (text_to_word_sequence (join " " ["<PAD>"; "good"])).
Proof.
  apply (encode_review_from_rows Demo.world Demo.config Demo.fresh).
  - vm_compute. reflexivity.
  - reflexivity.
Defined.

End Tokens.

Section Case.

Lemma lower_char_idem (c : ascii) : lower_char (lower_char c) = lower_char c.
Proof. destruct c as [[] [] [] [] [] [] [] []]; vm_compute; reflexivity. Qed.

Lemma is_space_lower_char (c : ascii) : is_space (lower_char c) = is_space c.
Proof. destruct c as [[] [] [] [] [] [] [] []]; vm_compute; reflexivity. Qed.

Lemma lower_idem (s : string) : lower (lower s) = lower s.
Proof.
  induction s as [|c s IH]; cbn [lower]; [reflexivity|].
  rewrite lower_char_idem, IH. reflexivity.
Qed.

Lemma lower_append (a b : string) : lower (a ++ b) = lower a ++ lower b.
Proof.
  induction a as [|c a IH]; simpl; [reflexivity|].
  rewrite IH. reflexivity.
Qed.

Lemma lower_rev_app (s acc : string) :
  lower (String.rev_app s acc) = String.rev_app (lower s) (lower acc).
Proof.
  revert acc. induction s as [|c s IH]; intros acc; cbn [lower String.rev_app];
    [reflexivity|]. rewrite IH. reflexivity.
Qed.

Lemma fields_lower (s cur : string) :
  fields is_space (lower cur) (lower s) = List.map lower (fields is_space cur s).
Proof.
  revert cur. induction s as [|c s IH]; intros cur; cbn [fields lower List.map].
  - unfold String.rev. rewrite lower_rev_app. reflexivity.
  - rewrite is_space_lower_char. destruct (is_space c); cbn [List.map].
    + unfold String.rev. rewrite lower_rev_app. f_equal. apply (IH EmptyString).
    + apply (IH (String c cur)).
Qed.

Lemma nonempty_lower (s : string) : nonempty (lower s) = nonempty s.
Proof. destruct s; reflexivity. Qed.

Lemma split_lower (s : string) : split (lower s) = List.map lower (split s).
Proof.
  unfold split. change EmptyString with (lower EmptyString) at 1.
  rewrite (fields_lower s EmptyString).
  induction (fields is_space EmptyString s) as [|x l IH]; cbn [List.map List.filter];
    [reflexivity|].
  rewrite nonempty_lower. destruct (nonempty x); cbn [List.map]; rewrite IH; reflexivity.
Qed.

Lemma lower_join (sep : string) (l : list string) :
  lower (join sep l) = join (lower sep) (List.map lower l).
Proof.
  induction l as [|x l IH]; [reflexivity|].
  destruct l as [|y l]; [reflexivity|].
  change (join sep (x :: y :: l)) with (x ++ sep ++ join sep (y :: l)).
  change (join (lower sep) (List.map lower (x :: y :: l)))
    with (lower x ++ lower sep ++ join (lower sep) (List.map lower (y :: l))).
  rewrite !lower_append, IH. reflexivity.
Qed.

Lemma encode_review_lower (s : Self) (review : list string) :
  encode_review s (List.map lower review) = encode_review s review.
Proof.
  unfold encode_review, text_to_word_sequence.
  replace (lower (join " " (List.map lower review))) with (lower (join " " review));
    [reflexivity|].
  rewrite !(lower_join " "), List.map_map.
  f_equal. apply List.map_ext. intros x. symmetry. apply lower_idem.
Qed.

(** X6. [predict] does not see the case of the letters: the review put in
    lower case gets the same probability and the same label, through the
    same call to the model. *)
Theorem predict_ignores_case (review : string) (st : State) :
  predict (lower review) st = predict review st.
Proof.
  unfold predict. rewrite split_lower.
  unfold bind, get_self. cbv beta iota zeta.
  rewrite encode_review_lower. reflexivity.
Qed.

End Case.

(** ** More on [preprocess_data] and [predict] *)

Section Preprocess.

Ltac run :=
  unfold bind, ret, raise, lift, get_self, set_self, emit; cbv beta iota zeta.

Lemma Forall2_lengths {X Y : Type} (P : X -> Y -> Prop) (l : list X) (l' : list Y) :
  Forall2 P l l' -> length l' = length l.
Proof. induction 1; cbn [length]; congruence. Qed.

Lemma series_apply_other {B} (attr : string) (f : string -> B) (cells : list pd_cell)
    (t : string) :
  In (PdOther t) cells ->
  exists e, series_apply (on_str attr f) cells = Raise e /\ exn_cls e = AttributeError.
Proof.
  induction cells as [|c cells IH]; intros Hin; [destruct Hin|].
  cbn [series_apply]. destruct c as [x|t']; cbn [on_str].
  - destruct Hin as [H|Hin]; [discriminate H|].
    destruct (IH Hin) as (e & -> & He). exists e. auto.
  - eexists. split; reflexivity.
Qed.

Lemma series_apply_raises {B} (attr : string) (f : string -> B) (cells : list pd_cell)
    (e : exn) :
  series_apply (on_str attr f) cells = Raise e -> exn_cls e = AttributeError.
Proof.
  induction cells as [|c cells IH]; cbn [series_apply]; [discriminate|].
  destruct c as [x|t]; cbn [on_str].
  - destruct (series_apply (on_str attr f) cells); [discriminate|].
    intros [= <-]. apply IH. reflexivity.
  - intros [= <-]. reflexivity.
Qed.

(** X7. When the file is read and ["<PAD>"] is a key of [word_index] (as
    in every object built by the constructor), [preprocess_data] reads the
    file once and leaves the object as it is.  If every cell of the two
    columns is a [str], it returns one row of exactly 500 indices and one
    label per row of the file, the label being 1 for the sentiments equal
    to "positive" whatever their case and 0 for the others.  If some cell
    is not a [str] (a missing cell, read as NaN), it raises an
    [AttributeError]. *)
Theorem preprocess_data_aligned (w : World) (file_path : string) (st : State)
    (cells : list (pd_cell * pd_cell)) (pad : Z) :
  read_labeled w file_path = Ok cells ->
  word_index (self st) !! "<PAD>" = Some pad ->
  (forall reviews : list (string * string),
     cells = Spec.str_rows reviews ->
     exists (data : list (list Z)) (labels : list Z),
       preprocess_data w file_path st
       = (Ok (data, labels),
          {| self := self st; trace := (trace st ++ [ReadCsv file_path])%list |}) /\
       length data = length reviews /\
       length labels = length reviews /\
       Forall (fun row => length row = 500%nat) data /\
       labels = List.map (fun r => if Spec.eq_ignore_case (snd r) "positive"
                                   then 1 else 0) reviews) /\
  (forall (r : pd_cell * pd_cell) (t : string),
     In r cells -> fst r = PdOther t \/ snd r = PdOther t ->
     exists e : exn,
       preprocess_data w file_path st
       = (Raise e,
          {| self := self st; trace := (trace st ++ [ReadCsv file_path])%list |}) /\
       exn_cls e = AttributeError).
Proof.
  intros Hread Hpad. split.
  - intros reviews ->. unfold preprocess_data. run. cbn [self].
    rewrite Hread, str_rows_fst, str_rows_snd, !series_apply_str.
    unfold getitem. rewrite Hpad.
    destruct (pad_sequences_post_pre 499 pad
                (List.map (encode_review (self st))
                   (List.map split (List.map fst reviews))))
      as (rows & Hrows & Hall).
    rewrite Hrows. eexists. eexists. split; [reflexivity|].
    split; [rewrite (Forall2_lengths _ _ _ Hall), !List.length_map; reflexivity|].
    split; [rewrite !List.length_map; reflexivity|].
    split; [eapply Forall2_right; [exact Hall|]; intros s0 row Hrow; apply Hrow|].
    rewrite List.map_map. apply List.map_ext. intros r. unfold encode_sentiment.
    rewrite (eq_ignore_case_lower (snd r) "positive") by reflexivity. reflexivity.
  - intros r t Hr Ht. unfold preprocess_data. run. cbn [self]. rewrite Hread.
    destruct (series_apply (on_str "split" split) (List.map fst cells))
      as [data|e] eqn:Hsplit.
    + unfold getitem. rewrite Hpad.
      destruct (pad_sequences_post_pre 499 pad (List.map (encode_review (self st)) data))
        as (rows & Hrows & _).
      rewrite Hrows.
      assert (Hin : In (PdOther t) (List.map snd cells)).
      { destruct Ht as [Ht|Ht].
        - exfalso. destruct (series_apply_other "split" split (List.map fst cells) t)
            as (e & He & _); [|congruence].
          rewrite <- Ht. apply List.in_map. exact Hr.
        - rewrite <- Ht. apply List.in_map. exact Hr. }
      destruct (series_apply_other "lower" encode_sentiment _ t Hin) as (e & -> & He).
      exists e. auto.
    + exists e. split; [reflexivity|].
      apply (series_apply_raises "split" split _ e Hsplit).
Qed.

Lemma preprocess_data_aligned_witness :
  (exists (data : list (list Z)) (labels : list Z),
     fst (preprocess_data Demo.world "test.csv" Demo.st_fresh) = Ok (data, labels) /\
     length data = 2%nat /\
     labels = [1; 0]) /\
  (exists e : exn,
     fst (preprocess_data Demo.world "gaps.csv" Demo.st_fresh) = Raise e /\
     exn_cls e = AttributeError).
Proof.
  assert (Hpad : word_index (self Demo.st_fresh) !! "<PAD>" = Some 0) by reflexivity.
  split.
  - assert (Hread : read_labeled Demo.world "test.csv"
                    = Ok (Spec.str_rows [("a good film", "Positive");
                                         ("bad, bad", "negative")]))
      by reflexivity.
    destruct (preprocess_data_aligned Demo.world "test.csv" Demo.st_fresh _ 0 Hread Hpad)
      as [Hstr _].
    destruct (Hstr _ eq_refl) as (data & labels & Hrun & Hlen & _ & _ & Hlabels).
    exists data, labels. rewrite Hrun. split; [reflexivity|].
    split; [exact Hlen | exact Hlabels].
  - assert (Hread : read_labeled Demo.world "gaps.csv"
                    = Ok [(PdStr "good", PdStr "positive");
                          (PdOther "float", PdStr "negative")])
      by reflexivity.
    destruct (preprocess_data_aligned Demo.world "gaps.csv" Demo.st_fresh _ 0 Hread Hpad)
      as [_ Hother].
    destruct (Hother (PdOther "float", PdStr "negative") "float") as (e & Hrun & He).
    + simpl. tauto.
    + left. reflexivity.
    + exists e. rewrite Hrun. split; [reflexivity | exact He].
Defined.

(** X8. In an object built by the constructor, on which no model was
    trained or loaded yet, [predict] raises [AttributeError] for every
    review, and nothing is sent to a model. *)
Theorem predict_before_model (w : World) (config : Config) (s : Self)
    (review : string) (evs : list event) :
  __init__ w config = Ok s ->
  predict review {| self := s; trace := evs |}
  = (Raise (mkExn AttributeError "'SA' object has no attribute 'model'"),
     {| self := s; trace := evs |}).
Proof.
  intros Hs. pose proof (init_pad w config s Hs) as Hpad.
  apply init_self in Hs as (_ & _ & _ & Hmodel).
  unfold predict, get_model. run. cbn [self trace].
  unfold getitem. rewrite Hpad.
  destruct (pad_sequences_post_pre 499 0 [encode_review s (split review)])
    as (rows & Hrows & _).
  rewrite Hrows, Hmodel. reflexivity.
Qed.

Lemma predict_before_model_witness :
  fst (predict "a good film" Demo.st_fresh)
  = Raise (mkExn AttributeError "'SA' object has no attribute 'model'").
Proof.
  assert (Hs : __init__ Demo.world Demo.config = Ok Demo.fresh) by (vm_compute; reflexivity).
  unfold Demo.st_fresh.
  rewrite (predict_before_model Demo.world Demo.config Demo.fresh "a good film" [] Hs).
  reflexivity.
Defined.



End Preprocess.

(** ** More on [predict_from_file] *)

Section Batch.
Import SpecX.

Ltac run :=
  unfold bind, ret, raise, lift, get_self, set_self, emit; cbv beta iota zeta.

Lemma for_each_predict_abort (w : World) (good : list string) (bad : string)
    (rest : list string) (s : Self) (e : exn) :
  (forall text, In text good -> exists r, Spec.predict_value s text = Ok r) ->
  Spec.predict_value s bad = Raise e ->
  forall (acc : list (list cell)) (tr : list event),
  exists evs : list event,
    for_each (List.map PdStr (good ++ bad :: rest)%list) acc (loop_body w)
      {| self := s; trace := tr |}
    = (Raise e,
       {| self := s;
          trace := (tr ++ List.map (fun t => Predict (user_review s t)) good ++ evs)%list |}) /\
    (evs = [] \/ evs = [Predict (user_review s bad)]).
Proof.
  intros Hok Hbad. induction good as [|text good IH]; intros acc tr.
  - cbn [List.app for_each List.map]. unfold bind at 1. unfold loop_body at 1.
    unfold bind at 1. unfold lift at 1. cbn [on_str]. unfold bind at 1.
    pose (st := {| self := s; trace := tr |}). fold st.
    destruct (predict_run bad st) as [Hval _].
    destruct (predict_effect bad st) as (evs & Hst & Hevs & _).
    subst st. cbn [self] in *. rewrite Hbad in Hval.
    destruct (predict bad _) as [r st1]. cbn [fst snd] in Hval, Hst. subst r st1.
    exists evs. split; [reflexivity | exact Hevs].
  - cbn [List.app for_each List.map]. unfold bind at 1. unfold loop_body at 1.
    unfold bind at 1. unfold lift at 1. cbn [on_str]. unfold bind at 1.
    pose (st := {| self := s; trace := tr |}). fold st.
    destruct (predict_run text st) as [Hval _].
    destruct (predict_effect text st) as (evs0 & Hst & _ & Hevs0).
    destruct (Hok text (or_introl eq_refl)) as ([prob sentiment] & Hr).
    subst st. cbn [self] in *. rewrite Hr in Hval.
    specialize (Hevs0 _ Hval). subst evs0.
    destruct (predict text _) as [r st1]. cbn [fst snd] in Hval, Hst. subst r st1.
    unfold ret at 1. cbn [self trace].
    destruct (IH (fun t Ht => Hok t (or_intror Ht))
                (np_append w acc [CStr text; CProb prob; CStr sentiment])
                (tr ++ [Predict (user_review s text)])%list) as (evs & Hrun & Hevs).
    exists evs. split; [|exact Hevs].
    rewrite Hrun. rewrite <- !List.app_assoc. reflexivity.
Qed.

(** X10. When [predict] succeeds on every review of a [.csv] or [.txt]
    file, [predict_from_file] reads the file once and then calls the model
    once per review, in the order of the file, each time on the padded
    encoding of that review alone; the object is left as it is. *)
Theorem predict_from_file_calls (w : World) (file_path : string)
    (texts : list string) (st : State) :
  reviews_of w file_path texts ->
  (forall text, In text texts -> exists r, fst (predict text st) = Ok r) ->
  snd (predict_from_file w file_path st)
  = {| self := self st;
       trace := (trace st ++ read_event file_path
                   :: List.map (fun t => Predict (user_review (self st) t)) texts)%list |}.
Proof.
  intros Hfile Hok. rewrite (predict_rows_records w file_path texts st Hfile Hok).
  reflexivity.
Qed.

Lemma predict_from_file_calls_witness :
  trace (snd (predict_from_file Demo.world "reviews.csv" Demo.st_loaded))
  = [ReadCsv "reviews.csv";
     Predict (user_review Demo.loaded "Good!");
     Predict (user_review Demo.loaded "nothing to say")].
Proof.
  assert (Hfile : reviews_of Demo.world "reviews.csv" ["Good!"; "nothing to say"])
    by (left; split; reflexivity).
  assert (Hok : forall text, In text ["Good!"; "nothing to say"] ->
                  exists r, fst (predict text Demo.st_loaded) = Ok r).
  { intros text [<-|[<-|[]]]; eexists; vm_compute; reflexivity. }
  rewrite (predict_from_file_calls Demo.world "reviews.csv" _ Demo.st_loaded Hfile Hok).
  reflexivity.
Defined.

(** X11. A review on which [predict] raises aborts the whole batch:
    [predict_from_file] raises the same exception and returns no record,
    not even those of the reviews before it, which were predicted; the
    reviews after it are never sent to the model. *)
Theorem predict_from_file_aborts (w : World) (file_path : string)
    (good : list string) (bad : string) (rest : list string) (st : State) (e : exn) :
  reviews_of w file_path (good ++ bad :: rest)%list ->
  (forall text, In text good -> exists r, fst (predict text st) = Ok r) ->
  fst (predict bad st) = Raise e ->
  exists (st' : State) (evs : list event),
    predict_from_file w file_path st = (Raise e, st') /\
    self st' = self st /\
    trace st' = (trace st ++ read_event file_path
                   :: List.map (fun t => Predict (user_review (self st) t)) good
                   ++ evs)%list /\
    (evs = [] \/ evs = [Predict (user_review (self st) bad)]).
Proof.
  intros Hfile Hok Hbad. rewrite (predict_from_file_unfold w file_path _ st Hfile).
  unfold bind at 1.
  destruct (for_each_predict_abort w good bad rest (self st) e) with
    (acc := [[CInt 0; CInt 0; CInt 0]]) (tr := (trace st ++ [read_event file_path])%list)
    as (evs & Hrun & Hevs).
  - intros text Htext. rewrite <- (proj1 (predict_run text st)). apply Hok. exact Htext.
  - rewrite <- (proj1 (predict_run bad st)). exact Hbad.
  - rewrite Hrun. eexists. exists evs. split; [reflexivity|].
    cbn [self trace]. split; [reflexivity|]. split; [|exact Hevs].
    rewrite <- List.app_assoc. reflexivity.
Qed.

Lemma predict_from_file_aborts_witness :
  fst (predict_from_file Demo.world "reviews.txt" Demo2.st_picky)
  = Raise (mkExn ValueError "indices out of range").
Proof.
  assert (Hfile : reviews_of Demo.world "reviews.txt"
                    (["a good film"; "so so"] ++ "BAD" :: [])%list).
  { right. split; [reflexivity|]. split; [reflexivity|].
    eexists. split; reflexivity. }
  assert (Hok : forall text, In text ["a good film"; "so so"] ->
                  exists r, fst (predict text Demo2.st_picky) = Ok r).
  { intros text [<-|[<-|[]]]; eexists; vm_compute; reflexivity. }
  assert (Hbad : fst (predict "BAD" Demo2.st_picky)
                 = Raise (mkExn ValueError "indices out of range"))
    by (vm_compute; reflexivity).
  destruct (predict_from_file_aborts Demo.world "reviews.txt" _ _ _ Demo2.st_picky _
              Hfile Hok Hbad) as (st' & evs & Hrun & _).
  rewrite Hrun. reflexivity.
Defined.

Lemma for_each_predict_other (w : World) (good : list string) (t : string)
    (rest : list pd_cell) (s : Self) :
  (forall text, In text good -> exists r, Spec.predict_value s text = Ok r) ->
  forall (acc : list (list cell)) (tr : list event),
  exists e : exn,
    exn_cls e = AttributeError /\
    for_each (List.map PdStr good ++ PdOther t :: rest)%list acc (loop_body w)
      {| self := s; trace := tr |}
    = (Raise e,
       {| self := s;
          trace := (tr ++ List.map (fun t => Predict (user_review s t)) good)%list |}).
Proof.
  intros Hok. induction good as [|text good IH]; intros acc tr.
  - cbn [List.app for_each List.map]. unfold bind at 1. unfold loop_body at 1.
    unfold bind at 1. unfold lift at 1. cbn [on_str].
    eexists. split; [|rewrite List.app_nil_r; reflexivity]. reflexivity.
  - cbn [List.app for_each List.map]. unfold bind at 1. unfold loop_body at 1.
    unfold bind at 1. unfold lift at 1. cbn [on_str]. unfold bind at 1.
    pose (st := {| self := s; trace := tr |}). fold st.
    destruct (predict_run text st) as [Hval _].
    destruct (predict_effect text st) as (evs0 & Hst & _ & Hevs0).
    destruct (Hok text (or_introl eq_refl)) as ([prob sentiment] & Hr).
    subst st. cbn [self] in *. rewrite Hr in Hval.
    specialize (Hevs0 _ Hval). subst evs0.
    destruct (predict text _) as [r st1]. cbn [fst snd] in Hval, Hst. subst r st1.
    unfold ret at 1. cbn [self trace].
    destruct (IH (fun t Ht => Hok t (or_intror Ht))
                (np_append w acc [CStr text; CProb prob; CStr sentiment])
                (tr ++ [Predict (user_review s text)])%list) as (e & He & Hrun).
    exists e. split; [exact He|].
    rewrite Hrun. rewrite <- !List.app_assoc. reflexivity.
Qed.

(** X23. A cell of the column [Reviews] that is not a [str] (a missing
    cell, which pandas reads as NaN) aborts the batch of a [.csv] file:
    after the reviews before it were predicted, [predict_from_file] raises
    an [AttributeError] and returns no record; nothing is sent to the
    model for this cell nor for the cells after it. *)
Theorem predict_from_file_missing_cell (w : World) (file_path : string)
    (good : list string) (t : string) (rest : list pd_cell) (st : State) :
  endswith file_path ".csv" = true ->
  read_reviews w file_path = Ok (List.map PdStr good ++ PdOther t :: rest)%list ->
  (forall text, In text good -> exists r, fst (predict text st) = Ok r) ->
  exists e : exn,
    exn_cls e = AttributeError /\
    predict_from_file w file_path st
    = (Raise e,
       {| self := self st;
          trace := (trace st ++ ReadCsv file_path
                      :: List.map (fun t => Predict (user_review (self st) t)) good)%list |}).
Proof.
  intros Hcsv Hread Hok. unfold predict_from_file. rewrite Hcsv. run. rewrite Hread.
  unfold predict_rows. unfold bind at 1.
  destruct (for_each_predict_other w good t rest (self st)) with
    (acc := [[CInt 0; CInt 0; CInt 0]]) (tr := (trace st ++ [ReadCsv file_path])%list)
    as (e & He & Hrun).
  - intros text Htext. rewrite <- (proj1 (predict_run text st)). apply Hok. exact Htext.
  - exists e. split; [exact He|].
    change (fun (sentiment_collection : list (list cell)) (i : pd_cell) =>
              bind (lift (on_str "split" (fun review : string => review) i))
                (fun i0 => bind (predict i0) (fun r =>
                   let '(prob, sentiment) := r in
                   ret (np_append w sentiment_collection
                          [CStr i0; CProb prob; CStr sentiment]))))
      with (loop_body w).
    rewrite Hrun. rewrite <- List.app_assoc. reflexivity.
Qed.

Lemma predict_from_file_missing_cell_witness :
  exists e : exn,
    exn_cls e = AttributeError /\
    predict_from_file Demo.world "gaps.csv" Demo.st_loaded
    = (Raise e,
       {| self := Demo.loaded;
          trace := [ReadCsv "gaps.csv"; Predict (user_review Demo.loaded "Good!")] |}).
Proof.
  destruct (predict_from_file_missing_cell Demo.world "gaps.csv" ["Good!"] "float"
              [PdStr "bad"] Demo.st_loaded) as (e & He & Hrun).
  - reflexivity.
  - reflexivity.
  - intros text [<-|[]]. eexists. vm_compute. reflexivity.
  - exists e. split; [exact He | exact Hrun].
Defined.

End Batch.

(** ** More on the name of the checkpoint and on [train_model] *)

Section Checkpoint_more.
Import SpecX.

Lemma numbered_perm (names names' : list string) (idx : Z) :
  Permutation names names' -> Spec.numbered names idx -> Spec.numbered names' idx.
Proof.
  intros Hperm (i & Hin & Hpre & Hidx). exists i.
  split; [eapply Permutation_in; eassumption | auto].
Qed.

(** X12. The generated name does not depend on the order in which
    [os.listdir] gives the entries of [./models]: two listings of the same
    entries, each of those that start with [my_model] carrying a number,
    give the same name. *)
Theorem default_save_as_any_order (names names' : list string) :
  Permutation names names' ->
  (forall i, In i names -> startswith i "my_model" = true ->
             exists idx, int (slice_from 9 i) = Ok idx) ->
  default_save_as names' = default_save_as names.
Proof.
  intros Hperm Hparse.
  assert (Hparse' : forall i, In i names' -> startswith i "my_model" = true ->
                              exists idx, int (slice_from 9 i) = Ok idx).
  { intros i Hi. apply Hparse. eapply Permutation_in; [symmetry|]; eassumption. }
  destruct (next_idx_spec names Hparse 0) as (n & Hn & Hle & Hall & Hmax).
  destruct (next_idx_spec names' Hparse' 0) as (n' & Hn' & Hle' & Hall' & Hmax').
  unfold default_save_as. rewrite Hn, Hn'.
  assert (n' = n); [|congruence].
  assert (Hlow : n' <= n).
  { destruct Hmax' as [->|Hnum]; [exact Hle|].
    apply (numbered_perm names' names) in Hnum; [|symmetry; exact Hperm].
    specialize (Hall _ Hnum). lia. }
  assert (Hhigh : n <= n').
  { destruct Hmax as [->|Hnum]; [exact Hle'|].
    apply (numbered_perm names names') in Hnum; [|exact Hperm].
    specialize (Hall' _ Hnum). lia. }
  lia.
Qed.

Lemma default_save_as_any_order_witness :
  default_save_as ["my_model_3"; "notes.txt"; "my_model_0"]
  = default_save_as ["my_model_0"; "my_model_3"; "notes.txt"].
Proof.
  apply default_save_as_any_order.
  - change ["my_model_3"; "notes.txt"; "my_model_0"]
      with (["my_model_3"; "notes.txt"] ++ "my_model_0" :: [])%list.
    apply Permutation_cons_app. rewrite List.app_nil_r. apply Permutation_refl.
  - intros i [<-|[<-|[<-|[]]]] H; try discriminate H; eexists; reflexivity.
Defined.

Lemma next_idx_raises (names : list string) (curr_idx : Z) (e : exn) :
  next_idx curr_idx names = Raise e ->
  exn_cls e = ValueError /\
  exists i, In i names /\ startswith i "my_model" = true /\
            int (slice_from 9 i) = Raise e.
Proof.
  revert curr_idx. induction names as [|i names IH]; intros curr_idx; cbn [next_idx];
    [discriminate|].
  destruct (startswith i "my_model") eqn:Hpre.
  - destruct (int (slice_from 9 i)) as [idx|e'] eqn:Hidx.
    + intros H. destruct (IH _ H) as (Hcls & j & Hj & Hjpre & Hjidx).
      split; [exact Hcls|]. exists j. split; [right; exact Hj | auto].
    + intros [= <-]. split.
      * unfold int in Hidx.
        destruct (match strip (slice_from 9 i) with
                  | EmptyString => _ | String _ _ => _ end); [discriminate|].
        injection Hidx as <-. reflexivity.
      * exists i. split; [left; reflexivity | auto].
  - intros H. destruct (IH _ H) as (Hcls & j & Hj & Hjpre & Hjidx).
    split; [exact Hcls|]. exists j. split; [right; exact Hj | auto].
Qed.

Lemma next_idx_stray (names : list string) (i : string) (e : exn) :
  In i names -> startswith i "my_model" = true -> int (slice_from 9 i) = Raise e ->
  forall curr_idx, exists e', next_idx curr_idx names = Raise e'.
Proof.
  intros Hin Hpre Hidx. induction names as [|j names IH]; [destruct Hin|].
  intros curr_idx. cbn [next_idx]. destruct Hin as [->|Hin].
  - rewrite Hpre, Hidx. eexists. reflexivity.
  - destruct (startswith j "my_model"); [|apply IH; exact Hin].
    destruct (int (slice_from 9 j)); [apply IH; exact Hin | eexists; reflexivity].
Qed.

(** X13. No name is generated exactly when some entry of [./models]
    starts with [my_model] and carries no integer after its ninth
    character (as [my_model] itself, or [my_model_best]); what the loop
    raises then is a [ValueError]. *)
Theorem default_save_as_raises_iff (names : list string) :
  ((exists e, default_save_as names = Raise e) <->
   (exists i e, In i names /\ startswith i "my_model" = true /\
                int (slice_from 9 i) = Raise e)) /\
  (forall e, default_save_as names = Raise e -> exn_cls e = ValueError).
Proof.
  unfold default_save_as. split; [split|].
  - intros (e & He). destruct (next_idx 0 names) as [n|e'] eqn:Hn; [discriminate|].
    destruct (next_idx_raises names 0 e' Hn) as (_ & i & Hi). exists i, e'. exact Hi.
  - intros (i & e & Hin & Hpre & Hidx).
    destruct (next_idx_stray names i e Hin Hpre Hidx 0) as (e' & He').
    exists e'. rewrite He'. reflexivity.
  - intros e. destruct (next_idx 0 names) as [n|e'] eqn:Hn; [discriminate|].
    intros [= <-]. apply (next_idx_raises names 0 e' Hn).
Qed.

Lemma default_save_as_raises_iff_witness :
  exists e, default_save_as ["my_model_0"; "my_model_best"] = Raise e /\
            exn_cls e = ValueError.
Proof.
  destruct (default_save_as_raises_iff ["my_model_0"; "my_model_best"]) as [[_ Hraise] Hcls].
  destruct Hraise as (e & He).
  - exists "my_model_best". eexists. split; [simpl; tauto|]. split; reflexivity.
  - exists e. split; [exact He | apply Hcls; exact He].
Defined.

End Checkpoint_more.

Section Training.
Import SpecX.

Ltac run :=
  unfold bind, ret, raise, lift, get_self, set_self, emit; cbv beta iota zeta.

Lemma preprocess_data_eq (w : World) (file_path : string) (st : State) :
  preprocess_data w file_path st
  = (preprocess_value w (self st) file_path,
     {| self := self st; trace := (trace st ++ [ReadCsv file_path])%list |}).
Proof.
  unfold preprocess_value, preprocess_data. run. cbn [self trace].
  destruct (read_labeled w file_path); [|reflexivity].
  destruct (series_apply (on_str "split" split) _); [|reflexivity].
  destruct (getitem _ _); [|reflexivity].
  destruct (pad_sequences _ _ _ _ _); [|reflexivity].
  destruct (series_apply (on_str "lower" encode_sentiment) _); reflexivity.
Qed.

Lemma preprocess_value_fst (w : World) (file_path : string) (st : State) :
  fst (preprocess_data w file_path st) = preprocess_value w (self st) file_path.
Proof. rewrite preprocess_data_eq. reflexivity. Qed.

(** X14. When [train_model] returns, [model] is the fitted network, [loss]
    and [accuracy] are its evaluation on the test data, and the network
    was saved last: under [save_as] when a path is given, without a look
    at [./models], and otherwise under the name generated from the listing
    of [./models]. *)
Theorem train_model_returns (w : World) (config : Config) (save_as : option string)
    (st st' : State) :
  train_model w config save_as st = (Ok tt, st') ->
  exists (train test : list (list Z) * list Z) (m : Model) (la : Q * Q) (path : string),
    fst (preprocess_data w (TRAIN_FILE_PATH config) st) = Ok train /\
    fst (preprocess_data w (TEST_FILE_PATH config) st) = Ok test /\
    fit w (sequential w) (fst train) (snd train) (fst test) (snd test) = Ok m /\
    model_evaluate m (fst test) (snd test) = Ok la /\
    save w m path = Ok tt /\
    model (self st') = Some m /\
    loss (self st') = Some (fst la) /\
    accuracy (self st') = Some (snd la) /\
    match save_as with
    | Some p =>
        path = p /\
        trace st' = (trace st ++ [ReadCsv (TRAIN_FILE_PATH config);
                                  ReadCsv (TEST_FILE_PATH config); Fit;
                                  Evaluate (fst test) (snd test); Save p])%list
    | None =>
        (exists names, listdir w "./models" = Ok names /\
                       default_save_as names = Ok path) /\
        trace st' = (trace st ++ [ReadCsv (TRAIN_FILE_PATH config);
                                  ReadCsv (TEST_FILE_PATH config); Fit;
                                  Evaluate (fst test) (snd test);
                                  Listdir "./models"; Save path])%list
    end.
Proof.
  rewrite !preprocess_value_fst.
  unfold train_model. unfold bind at 1. rewrite preprocess_data_eq.
  destruct (preprocess_value w (self st) (TRAIN_FILE_PATH config))
    as [[train_data train_labels]|e]; [|discriminate].
  unfold bind at 1. rewrite preprocess_data_eq. cbn [self trace].
  destruct (preprocess_value w (self st) (TEST_FILE_PATH config))
    as [[test_data test_labels]|e]; [|discriminate].
  unfold model_evaluate_, get_model, set_model, set_loss_accuracy. run. cbn [self trace].
  destruct (fit w (sequential w) train_data train_labels test_data test_labels)
    as [m|e] eqn:Hfit; [|discriminate].
  cbn [self trace model].
  destruct (model_evaluate m test_data test_labels) as [la|e] eqn:Heval; [|discriminate].
  cbn [self trace model].
  destruct save_as as [p|]; cbn [self trace model].
  - destruct (save w m p) as [[]|e] eqn:Hsave; [|discriminate].
    intros [= <-]. exists (train_data, train_labels), (test_data, test_labels), m, la, p.
    cbn [fst snd self trace model loss accuracy].
    repeat (split; [reflexivity || assumption|]).
    rewrite <- !List.app_assoc. reflexivity.
  - destruct (listdir w "./models") as [names|e] eqn:Hls; [|discriminate].
    destruct (default_save_as names) as [path|e] eqn:Hname; [|discriminate].
    cbn [self trace model].
    destruct (save w m path) as [[]|e] eqn:Hsave; [|discriminate].
    intros [= <-]. exists (train_data, train_labels), (test_data, test_labels), m, la, path.
    cbn [fst snd self trace model loss accuracy].
    repeat (split; [reflexivity || assumption|]).
    split; [exists names; auto|]. rewrite <- !List.app_assoc. reflexivity.
Qed.

Lemma train_model_returns_witness :
  exists st' : State,
    train_model Demo.world Demo.config (Some "./models/best") Demo.st_fresh = (Ok tt, st') /\
    List.last (trace st') Fit = Save "./models/best" /\
    List.filter is_listdir (trace st') = [].
Proof.
  destruct (train_model Demo.world Demo.config (Some "./models/best") Demo.st_fresh)
    as [r st'] eqn:Hrun.
  assert (Hr : r = Ok tt).
  { apply (f_equal fst) in Hrun. cbn [fst] in Hrun. rewrite <- Hrun.
    vm_compute. reflexivity. }
  subst r. exists st'. split; [reflexivity|].
  destruct (train_model_returns Demo.world Demo.config _ _ _ Hrun)
    as (train & test & m & la & path & _ & _ & _ & _ & _ & _ & _ & _ & _ & Htrace).
  rewrite Htrace. split; reflexivity.
Defined.

(** X15. A stray entry in [./models] loses the training: when the data are
    read, the network is fitted and evaluated, and some entry of
    [./models] starts with [my_model] without an integer after its ninth
    character, [train_model] without [save_as] raises a [ValueError] after
    the training; [model], [loss] and [accuracy] are set, and nothing is
    saved. *)
Theorem train_model_stray_entry (w : World) (config : Config) (st : State)
    (train test : list (list Z) * list Z) (m : Model) (la : Q * Q)
    (names : list string) (i : string) (e0 : exn) :
  fst (preprocess_data w (TRAIN_FILE_PATH config) st) = Ok train ->
  fst (preprocess_data w (TEST_FILE_PATH config) st) = Ok test ->
  fit w (sequential w) (fst train) (snd train) (fst test) (snd test) = Ok m ->
  model_evaluate m (fst test) (snd test) = Ok la ->
  listdir w "./models" = Ok names ->
  In i names -> startswith i "my_model" = true -> int (slice_from 9 i) = Raise e0 ->
  exists (e : exn) (st' : State),
    train_model w config None st = (Raise e, st') /\
    exn_cls e = ValueError /\
    model (self st') = Some m /\
    loss (self st') = Some (fst la) /\
    accuracy (self st') = Some (snd la) /\
    List.filter is_save (trace st') = List.filter is_save (trace st).
Proof.
  rewrite !preprocess_value_fst.
  intros Htrain Htest Hfit Heval Hls Hin Hpre Hidx.
  destruct (next_idx_stray names i e0 Hin Hpre Hidx 0) as (e & He).
  pose proof (next_idx_raises names 0 e He) as [Hcls _].
  unfold train_model. unfold bind at 1. rewrite preprocess_data_eq, Htrain.
  destruct train as [train_data train_labels].
  unfold bind at 1. rewrite preprocess_data_eq. cbn [self trace]. rewrite Htest.
  destruct test as [test_data test_labels]. cbn [fst snd] in Hfit, Heval.
  unfold model_evaluate_, get_model, set_model, set_loss_accuracy, default_save_as.
  run. cbn [self trace]. rewrite Hfit. cbn [self trace model]. rewrite Heval.
  cbn [self trace model]. rewrite Hls, He.
  eexists. eexists. split; [reflexivity|]. cbn [self trace model loss accuracy].
  repeat (split; [reflexivity || assumption|]).
  rewrite <- !List.app_assoc, List.filter_app. cbn. apply List.app_nil_r.
Qed.

Lemma train_model_stray_entry_witness :
  exists (e : exn) (st' : State),
    train_model Demo2.world_stray Demo.config None Demo.st_fresh = (Raise e, st') /\
    exn_cls e = ValueError /\
    List.filter is_save (trace st') = [].
Proof.
  assert (Htrain : exists train,
            fst (preprocess_data Demo2.world_stray (TRAIN_FILE_PATH Demo.config) Demo.st_fresh)
            = Ok train) by (eexists; vm_compute; reflexivity).
  assert (Htest : exists test,
            fst (preprocess_data Demo2.world_stray (TEST_FILE_PATH Demo.config) Demo.st_fresh)
            = Ok test) by (eexists; vm_compute; reflexivity).
  destruct Htrain as (train & Htrain). destruct Htest as (test & Htest).
  destruct (train_model_stray_entry Demo2.world_stray Demo.config Demo.st_fresh
              train test Demo.net ((1 # 4)%Q, (9 # 10)%Q)
              ["my_model_0"; "my_model_best"] "my_model_best"
              (invalid_literal "best") Htrain Htest)
    as (e & st' & Hrun & Hcls & _ & _ & _ & Hsave);
    try reflexivity; [simpl; tauto|].
  exists e, st'. split; [exact Hrun|]. split; [exact Hcls | exact Hsave].
Defined.

(** X16. When the data are read and [fit] raises, [train_model] raises the
    same exception, and [model] is left holding the newly built network
    (the one whose fitting failed; what the failed fitting did to it is not
    modelled) instead of the model held before; [loss] and [accuracy] keep
    their values, and nothing is saved. *)
Theorem train_model_fit_raises (w : World) (config : Config) (save_as : option string)
    (st : State) (train test : list (list Z) * list Z) (e : exn) :
  fst (preprocess_data w (TRAIN_FILE_PATH config) st) = Ok train ->
  fst (preprocess_data w (TEST_FILE_PATH config) st) = Ok test ->
  fit w (sequential w) (fst train) (snd train) (fst test) (snd test) = Raise e ->
  exists st' : State,
    train_model w config save_as st = (Raise e, st') /\
    model (self st') = Some (sequential w) /\
    loss (self st') = loss (self st) /\
    accuracy (self st') = accuracy (self st) /\
    List.filter is_save (trace st') = List.filter is_save (trace st).
Proof.
  rewrite !preprocess_value_fst. intros Htrain Htest Hfit.
  unfold train_model. unfold bind at 1. rewrite preprocess_data_eq, Htrain.
  destruct train as [train_data train_labels].
  unfold bind at 1. rewrite preprocess_data_eq. cbn [self trace]. rewrite Htest.
  destruct test as [test_data test_labels]. cbn [fst snd] in Hfit.
  unfold set_model. run. cbn [self trace]. rewrite Hfit.
  eexists. split; [reflexivity|]. cbn [self trace model loss accuracy].
  repeat (split; [reflexivity|]).
  rewrite <- !List.app_assoc, List.filter_app. cbn. apply List.app_nil_r.
Qed.

Lemma train_model_fit_raises_witness :
  exists st' : State,
    train_model Demo2.world_nofit Demo.config None Demo.st_loaded
    = (Raise (mkExn RuntimeError "OOM when allocating tensor"), st') /\
    model (self st') = Some Demo.uncompiled /\
    loss (self st') = Some (1 # 4)%Q.
Proof.
  assert (Htrain : exists train,
            fst (preprocess_data Demo2.world_nofit (TRAIN_FILE_PATH Demo.config) Demo.st_loaded)
            = Ok train) by (eexists; vm_compute; reflexivity).
  assert (Htest : exists test,
            fst (preprocess_data Demo2.world_nofit (TEST_FILE_PATH Demo.config) Demo.st_loaded)
            = Ok test) by (eexists; vm_compute; reflexivity).
  destruct Htrain as (train & Htrain). destruct Htest as (test & Htest).
  destruct (train_model_fit_raises Demo2.world_nofit Demo.config None Demo.st_loaded
              train test _ Htrain Htest eq_refl)
    as (st' & Hrun & Hmodel & Hloss & _).
  exists st'. split; [exact Hrun|]. split; [exact Hmodel | exact Hloss].
Defined.

End Training.

(** ** More on [load_saved_model] and on the constructor *)

Section Loading_more.
Import SpecX.

Ltac run :=
  unfold bind, ret, raise, lift, get_self, set_self, emit; cbv beta iota zeta.

(** X17. When [load_saved_model] returns, [model] is the deserialized
    model, [loss] and [accuracy] are its evaluation on the test data, and
    the calls made are the reading of the test file, one call of
    [load_model] and one evaluation: nothing is logged. *)
Theorem load_saved_model_returns (w : World) (config : Config)
    (load_path : option string) (st st' : State) :
  load_saved_model w config load_path st = (Ok tt, st') ->
  exists (test : list (list Z) * list Z) (m : Model) (la : Q * Q),
    fst (preprocess_data w (TEST_FILE_PATH config) st) = Ok test /\
    load_model w load_path = Ok m /\
    model_evaluate m (fst test) (snd test) = Ok la /\
    model (self st') = Some m /\
    loss (self st') = Some (fst la) /\
    accuracy (self st') = Some (snd la) /\
    trace st' = (trace st ++ [ReadCsv (TEST_FILE_PATH config); LoadModel load_path;
                              Evaluate (fst test) (snd test)])%list.
Proof.
  rewrite preprocess_value_fst.
  unfold load_saved_model. unfold bind at 1. rewrite preprocess_data_eq.
  destruct (preprocess_value w (self st) (TEST_FILE_PATH config))
    as [[test_data test_labels]|e]; [|discriminate].
  unfold try_except, model_evaluate_, get_model, set_model, set_loss_accuracy.
  run. cbn [self trace].
  destruct (load_model w load_path) as [m|e].
  - cbn [self trace model].
    destruct (model_evaluate m test_data test_labels) as [la|e] eqn:Heval; [|discriminate].
    intros [= <-]. exists (test_data, test_labels), m, la.
    cbn [fst snd self trace model loss accuracy].
    repeat (split; [reflexivity || assumption|]).
    rewrite <- !List.app_assoc. reflexivity.
  - destruct (is_Exception e); discriminate.
Qed.

Lemma load_saved_model_returns_witness :
  exists st' : State,
    load_saved_model Demo.world Demo.config (Some "./models/my_model_0") Demo.st_fresh
    = (Ok tt, st') /\
    model (self st') = Some Demo.net /\
    loss (self st') = Some (1 # 4)%Q /\
    accuracy (self st') = Some (9 # 10)%Q.
Proof.
  destruct (load_saved_model Demo.world Demo.config (Some "./models/my_model_0")
              Demo.st_fresh) as [r st'] eqn:Hrun.
  assert (Hr : r = Ok tt).
  { apply (f_equal fst) in Hrun. cbn [fst] in Hrun. rewrite <- Hrun.
    vm_compute. reflexivity. }
  subst r. exists st'. split; [reflexivity|].
  destruct (load_saved_model_returns Demo.world Demo.config _ _ _ Hrun)
    as (test & m & la & _ & Hload & Heval & Hmodel & Hloss & Hacc & _).
  injection Hload as <-. injection Heval as <-.
  split; [exact Hmodel|]. split; [exact Hloss | exact Hacc].
Defined.

(** X18. [load_saved_model] writes to the log in one case only: [e] is
    logged by [logger.fatal] exactly when the test data were read and
    [load_model] raised [e], an instance of [Exception].  A failure to
    read the test data, a failure of the evaluation, or an interruption of
    the loading ([KeyboardInterrupt], [SystemExit]) is raised without a
    log entry. *)
Theorem load_saved_model_logs_iff (w : World) (config : Config)
    (load_path : option string) (st : State) :
  exists evs : list event,
    trace (snd (load_saved_model w config load_path st)) = (trace st ++ evs)%list /\
    forall e : exn,
      In (LogFatal e) evs <->
      ((exists test, fst (preprocess_data w (TEST_FILE_PATH config) st) = Ok test) /\
       load_model w load_path = Raise e /\
       is_Exception e = true).
Proof.
  rewrite preprocess_value_fst.
  unfold load_saved_model. unfold bind at 1. rewrite preprocess_data_eq.
  destruct (preprocess_value w (self st) (TEST_FILE_PATH config))
    as [[test_data test_labels]|e0].
  - unfold try_except, model_evaluate_, get_model, set_model, set_loss_accuracy.
    run. cbn [self trace].
    destruct (load_model w load_path) as [m|e1].
    + cbn [self trace model].
      exists [ReadCsv (TEST_FILE_PATH config); LoadModel load_path;
              Evaluate test_data test_labels].
      split.
      * destruct (model_evaluate m test_data test_labels); cbn [snd trace];
          rewrite <- !List.app_assoc; reflexivity.
      * intros e. split.
        -- intros [H|[H|[H|[]]]]; discriminate H.
        -- intros (_ & H & _). discriminate H.
    + destruct (is_Exception e1) eqn:Hexn.
      * exists [ReadCsv (TEST_FILE_PATH config); LoadModel load_path; LogFatal e1].
        split; [cbn [snd trace]; rewrite <- !List.app_assoc; reflexivity|].
        intros e. split.
        -- intros [H|[H|[H|[]]]]; try discriminate H. injection H as <-.
           split; [eexists; reflexivity | auto].
        -- intros (_ & [= <-] & _). cbn. auto.
      * exists [ReadCsv (TEST_FILE_PATH config); LoadModel load_path].
        split; [cbn [snd trace]; rewrite <- !List.app_assoc; reflexivity|].
        intros e. split.
        -- intros [H|[H|[]]]; discriminate H.
        -- intros (_ & [= <-] & H). congruence.
  - exists [ReadCsv (TEST_FILE_PATH config)]. split; [reflexivity|].
    intros e. split.
    + intros [H|[]]. discriminate H.
    + intros ((test & H) & _). discriminate H.
Qed.

Lemma load_saved_model_logs_iff_witness :
  exists evs : list event,
    trace (snd (load_saved_model Demo2.world_interrupt Demo.config None Demo.st_fresh))
    = (trace Demo.st_fresh ++ evs)%list /\
    ~ In (LogFatal (mkExn KeyboardInterrupt "")) evs.
Proof.
  destruct (load_saved_model_logs_iff Demo2.world_interrupt Demo.config None Demo.st_fresh)
    as (evs & Htrace & Hiff).
  exists evs. split; [exact Htrace|].
  intros H. apply Hiff in H as (_ & _ & H). discriminate H.
Defined.

End Loading_more.

Section Constructor.
Import Device.

(** X19. The constructor does not survive a failure of the configuration
    of the device: when the vocabulary is read, and either no device of the
    configured kind exists or [set_memory_growth] raises an instance of
    [Exception], the handler that was to log the failure raises a
    [TypeError] itself, and no object is built. *)
Theorem construct_device_failure (w : World) (config : Config) (tf : Devices)
    (DEVICE : string) (s : Self) :
  __init__ w config = Ok s ->
  list_physical_devices tf DEVICE = [] \/
  (exists d rest e, list_physical_devices tf DEVICE = d :: rest /\
                    set_memory_growth tf d = Raise e /\ is_Exception e = true) ->
  construct w config tf DEVICE = Raise str_plus_exception /\
  exn_cls str_plus_exception = TypeError.
Proof.
  intros Hs Hdev. split; [|reflexivity].
  unfold construct, configure_device. rewrite Hs.
  destruct Hdev as [-> | (d & rest & e & -> & Hset & Hexn)]; cbn [first_device].
  - reflexivity.
  - rewrite Hset, Hexn. reflexivity.
Qed.

Lemma construct_device_failure_witness :
  construct Demo.world Demo.config Demo2.cpu_only "GPU" = Raise str_plus_exception /\
  construct Demo.world Demo.config Demo2.cpu_only "CPU" = Raise str_plus_exception.
Proof.
  assert (Hs : __init__ Demo.world Demo.config = Ok Demo.fresh) by (vm_compute; reflexivity).
  split.
  - apply (construct_device_failure Demo.world Demo.config Demo2.cpu_only "GPU" _ Hs).
    left. reflexivity.
  - apply (construct_device_failure Demo.world Demo.config Demo2.cpu_only "CPU" _ Hs).
    right. eexists. eexists. eexists. split; [reflexivity|]. split; reflexivity.
Defined.

(** X20. The constructor returns an object exactly when the vocabulary is
    read, a device of the configured kind exists and [set_memory_growth]
    accepts the first one; the object then has the caps of the
    configuration, the index 0 for ["<PAD>"], and neither model nor loss
    nor accuracy. *)
Theorem construct_returns_iff (w : World) (config : Config) (tf : Devices)
    (DEVICE : string) (s : Self) :
  (construct w config tf DEVICE = Ok s <->
   (__init__ w config = Ok s /\
    exists d rest, list_physical_devices tf DEVICE = d :: rest /\
                   set_memory_growth tf d = Ok tt)) /\
  (construct w config tf DEVICE = Ok s ->
   positive_cap s = POSITIVE_CAP config /\
   neutral_cap s = NEUTRAL_CAP config /\
   word_index s !! "<PAD>" = Some 0 /\
   model s = None /\ loss s = None /\ accuracy s = None).
Proof.
  assert (Hiff : construct w config tf DEVICE = Ok s ->
                 __init__ w config = Ok s /\
                 exists d rest, list_physical_devices tf DEVICE = d :: rest /\
                                set_memory_growth tf d = Ok tt).
  { unfold construct, configure_device.
    destruct (__init__ w config) as [s0|e]; [|discriminate].
    destruct (list_physical_devices tf DEVICE) as [|d rest]; cbn [first_device].
    - discriminate.
    - destruct (set_memory_growth tf d) as [[]|e] eqn:Hset.
      + intros [= <-]. split; [reflexivity|]. exists d, rest. auto.
      + destruct (is_Exception e); discriminate. }
  split; [split; [exact Hiff|]|].
  - unfold construct, configure_device.
    intros (-> & d & rest & -> & Hset). cbn [first_device]. rewrite Hset. reflexivity.
  - intros Hs. apply Hiff in Hs as [Hs _].
    pose proof (init_pad w config s Hs) as Hpad.
    pose proof (init_self w config s Hs) as (_ & Hp & Hn & Hm).
    repeat (split; [assumption|]).
    unfold __init__ in Hs. destruct (init_word_index w config); [|discriminate].
    injection Hs as <-. split; reflexivity.
Qed.

Lemma construct_returns_iff_witness :
  let tf := {| list_physical_devices := fun _ => ["/physical_device:GPU:0"];
               set_memory_growth := fun _ => Ok tt |} in
  construct Demo.world Demo.config tf "GPU" = Ok Demo.fresh /\
  model Demo.fresh = None.
Proof.
  intros tf.
  assert (Hs : construct Demo.world Demo.config tf "GPU" = Ok Demo.fresh).
  { apply (construct_returns_iff Demo.world Demo.config tf "GPU" Demo.fresh).
    split; [vm_compute; reflexivity|]. eexists. eexists. split; reflexivity. }
  split; [exact Hs|].
  apply (construct_returns_iff Demo.world Demo.config tf "GPU" Demo.fresh). exact Hs.
Defined.

End Constructor.

(** ** Unknown words and padding *)

Section Unknown.

Ltac run :=
  unfold bind, ret, raise, lift, get_self, set_self, emit; cbv beta iota zeta.







Lemma lower_char_filtered (c : ascii) : is_filtered c = true -> lower_char c = c.
Proof.
  destruct c as [[] [] [] [] [] [] [] []]; vm_compute; intros H;
    try reflexivity; discriminate H.
Qed.

Lemma occurs_append (c : ascii) (a b : string) :
  SpecX.occurs c (a ++ b) <-> SpecX.occurs c a \/ SpecX.occurs c b.
Proof.
  induction a as [|x a IH]; simpl; [tauto|]. rewrite IH. tauto.
Qed.

Lemma join_occurs (c : ascii) (sep : string) (l : list string) :
  SpecX.occurs c (join sep l) ->
  SpecX.occurs c sep \/ exists x, In x l /\ SpecX.occurs c x.
Proof.
  induction l as [|x l IH]; [intros []|].
  destruct l as [|y l].
  - intros H. right. exists x. split; [left; reflexivity | exact H].
  - change (join sep (x :: y :: l)) with (x ++ sep ++ join sep (y :: l)).
    rewrite !occurs_append. intros [H|[H|H]].
    + right. exists x. split; [left; reflexivity | exact H].
    + left. exact H.
    + destruct (IH H) as [Hs|(z & Hz & Hc)]; [left; exact Hs|].
      right. exists z. split; [right; exact Hz | exact Hc].
Qed.

Lemma no_word (input_text : string) :
  (forall c, SpecX.occurs c input_text -> c = " "%char \/ is_filtered c = true) ->
  text_to_word_sequence input_text = [].
Proof.
  unfold text_to_word_sequence.
  induction input_text as [|c s IH]; intros Hblank; [reflexivity|].
  cbn [lower translate].
  assert (Hc : (if is_filtered (lower_char c) then " "%char else lower_char c) = " "%char).
  { destruct (Hblank c (or_introl eq_refl)) as [->|Hf]; [reflexivity|].
    rewrite (lower_char_filtered c Hf), Hf. reflexivity. }
  rewrite Hc. cbn [fields Ascii.eqb Bool.eqb]. cbn [List.filter String.rev String.rev_app nonempty].
  apply IH. intros c' Hc'. apply Hblank. right. exact Hc'.
Qed.

(** X22. A review without any word, be it empty or made of white space
    and of the characters that Keras filters out only, is predicted
    exactly as the empty review. *)
Theorem predict_blank_review (review : string) (st : State) :
  (forall c, SpecX.occurs c review -> is_space c = true \/ is_filtered c = true) ->
  predict review st = predict "" st.
Proof.
  intros Hblank.
  assert (Henc : encode_review (self st) (split review) = []).
  { unfold encode_review. rewrite no_word; [reflexivity|].
    intros c Hc. apply join_occurs in Hc as [Hc|(x & Hx & Hc)].
    - left. cbn in Hc. destruct Hc as [<-|[]]. reflexivity.
    - right. unfold split in Hx. apply List.filter_In in Hx as [Hx _].
      destruct (fields_occurs _ _ _ _ _ Hx Hc) as [[]|[Hr Hsp]].
      destruct (Hblank c Hr) as [H|H]; [congruence | exact H]. }
  unfold predict. run. rewrite Henc. reflexivity.
Qed.

Lemma predict_blank_review_witness :
  predict " ?! ... " Demo.st_loaded = predict "" Demo.st_loaded.
Proof.
  apply (predict_blank_review " ?! ... " Demo.st_loaded).
  intros c H. cbn in H.
  repeat (destruct H as [<-|H]; [vm_compute; auto|]). destruct H.
Defined.

End Unknown.
